(** * Screenshot editor: the ownership-scoped action layer

    A shallow embedding of [src/db/tables.ts] (the three tables) and of
    [src/src/actions/index.ts] (the eight remote actions), followed by the
    properties of the action layer: tenant isolation, ownership of created
    rows, partial updates, the append-only edit log and the order of the
    checks an action performs. *)

From Stdlib Require Import String ZArith List Bool Lia.
Import ListNotations.

Local Open Scope string_scope.
Local Open Scope list_scope.
Local Open Scope Z_scope.

(** ** Values received from the caller *)

(** The JavaScript value an action is invoked with, before any schema has
    looked at it.  An object is a list of key/value pairs; a key is read
    at its first occurrence. *)
Unset Elimination Schemes.
Inductive jsval : Type :=
| JUndefined
| JNull
| JBool (b : bool)
| JNumber (n : Z)
| JString (s : string)
| JArray (items : list jsval)
| JObject (fields : list (string * jsval)).
Set Elimination Schemes.

Fixpoint prop (key : string) (fields : list (string * jsval)) : jsval :=
  match fields with
  | [] => JUndefined
  | (k, v) :: rest => if k =? key then v else prop key rest
  end%string.

(** ** The tables of [db/tables.ts] *)

(** Dates are milliseconds since the epoch; an optional column holds
    [None] for NULL.  [width] and [height] are numbers the actions only
    copy, never compute with. *)
Record Project : Type := mkProject {
  p_id : string;
  p_userId : string;
  p_title : option string;
  p_description : option string;
  p_sourceDevice : option string;
  p_sourceApp : option string;
  p_createdAt : Z;
  p_updatedAt : Z
}.

Record Screenshot : Type := mkScreenshot {
  s_id : string;
  s_projectId : option string;
  s_userId : string;
  s_originalImageUrl : string;
  s_editedImageUrl : option string;
  s_width : option Z;
  s_height : option Z;
  s_createdAt : Z;
  s_updatedAt : Z
}.

Record ScreenshotEdit : Type := mkScreenshotEdit {
  e_id : string;
  e_screenshotId : string;
  e_userId : string;
  e_editType : option string;
  e_operationsJson : option string;
  e_resultImageUrl : option string;
  e_createdAt : Z
}.

Inductive Table : Type := TScreenshotProjects | TScreenshots | TScreenshotEdits.

(** One statement sent through [db]. *)
Inductive Query : Type :=
| Select (t : Table)
| Insert (t : Table)
| Update (t : Table).

(** The relational store: the rows of each table in insertion order, and
    the statements issued so far.  [issued] is bookkeeping of the model: it
    lets a property say that an action failed before it touched the store. *)
Record Store : Type := mkStore {
  ScreenshotProjects : list Project;
  Screenshots : list Screenshot;
  ScreenshotEdits : list ScreenshotEdit;
  issued : list Query
}.

Definition empty_store : Store := mkStore [] [] [] [].

Definition log (q : Query) (st : Store) : Store :=
  mkStore (ScreenshotProjects st) (Screenshots st) (ScreenshotEdits st)
          (issued st ++ [q]).

Definition with_projects (rows : list Project) (st : Store) : Store :=
  mkStore rows (Screenshots st) (ScreenshotEdits st) (issued st).

Definition with_screenshots (rows : list Screenshot) (st : Store) : Store :=
  mkStore (ScreenshotProjects st) rows (ScreenshotEdits st) (issued st).

Definition with_edits (rows : list ScreenshotEdit) (st : Store) : Store :=
  mkStore (ScreenshotProjects st) (Screenshots st) rows (issued st).

(** ** Errors, results and the action monad *)

Inductive ErrorCode : Type := UNAUTHORIZED | NOT_FOUND.

Inductive Constraint : Type :=
| PrimaryKey (t : Table)
| ForeignKey (t : Table).

(** What an action can throw: an [ActionError] of the handlers, the input
    error raised when the declared schema rejects the input, or a
    constraint violation surfaced by the store, which the handlers do not
    catch. *)
Inductive Error : Type :=
| ActionError (code : ErrorCode) (message : string)
| ValidationError
| ConstraintError (c : Constraint).

Inductive Result (A : Type) : Type :=
| Ok (a : A)
| Err (e : Error).
Arguments Ok {A} a.
Arguments Err {A} e.

(** A handler runs against the store; a thrown error leaves the store as
    the statements executed so far have made it. *)
Definition M (A : Type) : Type := Store -> Result A * Store.

Definition ret {A} (a : A) : M A := fun st => (Ok a, st).

Definition throw {A} (e : Error) : M A := fun st => (Err e, st).

Definition bind {A B} (c : M A) (k : A -> M B) : M B :=
  fun st =>
    match c st with
    | (Ok a, st') => k a st'
    | (Err e, st') => (Err e, st')
    end.

Definition lift {A} (r : Result A) : M A := fun st => (r, st).

Notation "x <- c ;; k" := (bind c (fun x => k))
  (at level 61, c at next level, right associativity).
Notation "c ;;; k" := (bind c (fun _ => k))
  (at level 61, right associativity).

(** ** The caller and the ambient environment *)

Record User : Type := mkUser { user_id : string }.

Record Locals : Type := mkLocals { user : option User }.

(** [context.locals] may itself be undefined. *)
Record Context : Type := mkContext { locals : option Locals }.

(** What one invocation reads from its surroundings: the value of
    [crypto.randomUUID()] and of [new Date()]. *)
Record Env : Type := mkEnv {
  randomUUID : string;
  new_Date : Z
}.

(** [crypto.randomUUID()] returns a 36 character string. *)
Definition is_uuid (s : string) : bool := (String.length s =? 36)%nat.

(** ** What a successful action returns: the [data] of the envelope *)

Inductive Response : Type :=
| ProjectData (project : option Project)
| ProjectList (items : list Project) (total : nat)
| ScreenshotData (screenshot : option Screenshot)
| ScreenshotList (items : list Screenshot) (total : nat)
| EditData (edit : option ScreenshotEdit)
| EditList (items : list ScreenshotEdit) (total : nat).

(** ** Input schemas

    [defineAction] is given a zod schema as [input]; a schema either
    rejects a value or returns the parsed input (unknown keys are
    dropped, since a parsed input holds the declared fields only). *)

Definition schema (A : Type) : Type := jsval -> option A.

Definition z_string : schema string :=
  fun v => match v with JString s => Some s | _ => None end.

Definition z_number : schema Z :=
  fun v => match v with JNumber n => Some n | _ => None end.

(** [.min(n)] on a string schema. *)
Definition z_min (n : nat) (sc : schema string) : schema string :=
  fun v =>
    match sc v with
    | Some s => if (n <=? String.length s)%nat then Some s else None
    | None => None
    end.

(** [.optional()]. *)
Definition z_optional {A} (sc : schema A) : schema (option A) :=
  fun v =>
    match v with
    | JUndefined => Some None
    | _ => option_map Some (sc v)
    end.

(** [.refine(check)]. *)
Definition z_refine {A} (check : A -> bool) (sc : schema A) : schema A :=
  fun v =>
    match sc v with
    | Some a => if check a then Some a else None
    | None => None
    end.

(** [z.object({...})]: the value must be an object; [shape] parses its
    declared keys. *)
Definition z_object {A} (shape : list (string * jsval) -> option A) : schema A :=
  fun v => match v with JObject fields => shape fields | _ => None end.

Definition obind {A B} (o : option A) (k : A -> option B) : option B :=
  match o with Some a => k a | None => None end.

Notation "x <-? o ;; k" := (obind o (fun x => k))
  (at level 61, o at next level, right associativity).

Definition defined {A} (o : option A) : bool :=
  match o with Some _ => true | None => false end.

(** The parsed inputs, one record per action. *)
Record CreateProjectInput : Type := mkCreateProjectInput {
  cp_title : option string;
  cp_description : option string;
  cp_sourceDevice : option string;
  cp_sourceApp : option string
}.

Record UpdateProjectInput : Type := mkUpdateProjectInput {
  up_id : string;
  up_title : option string;
  up_description : option string;
  up_sourceDevice : option string;
  up_sourceApp : option string
}.

Record CreateScreenshotInput : Type := mkCreateScreenshotInput {
  cs_projectId : option string;
  cs_originalImageUrl : string;
  cs_editedImageUrl : option string;
  cs_width : option Z;
  cs_height : option Z
}.

Record UpdateScreenshotInput : Type := mkUpdateScreenshotInput {
  us_id : string;
  us_projectId : option string;
  us_editedImageUrl : option string;
  us_width : option Z;
  us_height : option Z
}.

Record ListScreenshotsInput : Type := mkListScreenshotsInput {
  ls_projectId : option string
}.

Record CreateScreenshotEditInput : Type := mkCreateScreenshotEditInput {
  ce_screenshotId : string;
  ce_editType : option string;
  ce_operationsJson : option string;
  ce_resultImageUrl : option string
}.

Record ListScreenshotEditsInput : Type := mkListScreenshotEditsInput {
  le_screenshotId : string
}.

Definition createProject_input : schema CreateProjectInput :=
  z_object (fun o =>
    title <-? z_optional z_string (prop "title" o) ;;
    description <-? z_optional z_string (prop "description" o) ;;
    sourceDevice <-? z_optional z_string (prop "sourceDevice" o) ;;
    sourceApp <-? z_optional z_string (prop "sourceApp" o) ;;
    Some (mkCreateProjectInput title description sourceDevice sourceApp)).

Definition updateProject_refinement (input : UpdateProjectInput) : bool :=
  defined (up_title input) || defined (up_description input) ||
  defined (up_sourceDevice input) || defined (up_sourceApp input).

Definition updateProject_input : schema UpdateProjectInput :=
  z_refine updateProject_refinement
    (z_object (fun o =>
      id <-? z_min 1 z_string (prop "id" o) ;;
      title <-? z_optional z_string (prop "title" o) ;;
      description <-? z_optional z_string (prop "description" o) ;;
      sourceDevice <-? z_optional z_string (prop "sourceDevice" o) ;;
      sourceApp <-? z_optional z_string (prop "sourceApp" o) ;;
      Some (mkUpdateProjectInput id title description sourceDevice sourceApp))).

(** [z.object({}).optional()]: nothing is read from the input. *)
Definition listProjects_input : schema (option unit) :=
  z_optional (z_object (fun _ => Some tt)).

Definition createScreenshot_input : schema CreateScreenshotInput :=
  z_object (fun o =>
    projectId <-? z_optional z_string (prop "projectId" o) ;;
    originalImageUrl <-? z_min 1 z_string (prop "originalImageUrl" o) ;;
    editedImageUrl <-? z_optional z_string (prop "editedImageUrl" o) ;;
    width <-? z_optional z_number (prop "width" o) ;;
    height <-? z_optional z_number (prop "height" o) ;;
    Some (mkCreateScreenshotInput projectId originalImageUrl editedImageUrl
                                  width height)).

Definition updateScreenshot_refinement (input : UpdateScreenshotInput) : bool :=
  defined (us_projectId input) || defined (us_editedImageUrl input) ||
  defined (us_width input) || defined (us_height input).

Definition updateScreenshot_input : schema UpdateScreenshotInput :=
  z_refine updateScreenshot_refinement
    (z_object (fun o =>
      id <-? z_min 1 z_string (prop "id" o) ;;
      projectId <-? z_optional z_string (prop "projectId" o) ;;
      editedImageUrl <-? z_optional z_string (prop "editedImageUrl" o) ;;
      width <-? z_optional z_number (prop "width" o) ;;
      height <-? z_optional z_number (prop "height" o) ;;
      Some (mkUpdateScreenshotInput id projectId editedImageUrl width height))).

Definition listScreenshots_input : schema ListScreenshotsInput :=
  z_object (fun o =>
    projectId <-? z_optional z_string (prop "projectId" o) ;;
    Some (mkListScreenshotsInput projectId)).

Definition createScreenshotEdit_input : schema CreateScreenshotEditInput :=
  z_object (fun o =>
    screenshotId <-? z_min 1 z_string (prop "screenshotId" o) ;;
    editType <-? z_optional z_string (prop "editType" o) ;;
    operationsJson <-? z_optional z_string (prop "operationsJson" o) ;;
    resultImageUrl <-? z_optional z_string (prop "resultImageUrl" o) ;;
    Some (mkCreateScreenshotEditInput screenshotId editType operationsJson
                                      resultImageUrl)).

Definition listScreenshotEdits_input : schema ListScreenshotEditsInput :=
  z_object (fun o =>
    screenshotId <-? z_min 1 z_string (prop "screenshotId" o) ;;
    Some (mkListScreenshotEditsInput screenshotId)).

(** ** [requireUser] *)

Definition requireUser (context : Context) : Result User :=
  match locals context with
  | Some l =>
      match user l with
      | Some u => Ok u
      | None =>
          Err (ActionError UNAUTHORIZED
                 "You must be signed in to perform this action.")
      end
  | None =>
      Err (ActionError UNAUTHORIZED
             "You must be signed in to perform this action.")
  end.

(** JavaScript truthiness of an optional string, as in
    [if (input.projectId)]: undefined and the empty string are falsy. *)
Definition truthy (o : option string) : bool :=
  match o with
  | Some s => negb (s =? "")%string
  | None => false
  end.

(** Each spread [...(input.x !== undefined ? { x: input.x } : {})] of an
    update sets the column when the field is supplied and leaves it
    otherwise. *)
Definition patch {A} (supplied : option A) (old : option A) : option A :=
  match supplied with
  | Some v => Some v
  | None => old
  end.

(** The [.set({...})] object of [updateProject], applied to a row. *)
Definition updateProject_set (input : UpdateProjectInput) (now : Z)
  (r : Project) : Project :=
  mkProject (p_id r) (p_userId r)
            (patch (up_title input) (p_title r))
            (patch (up_description input) (p_description r))
            (patch (up_sourceDevice input) (p_sourceDevice r))
            (patch (up_sourceApp input) (p_sourceApp r))
            (p_createdAt r) now.

(** The [.set({...})] object of [updateScreenshot], applied to a row. *)
Definition updateScreenshot_set (input : UpdateScreenshotInput) (now : Z)
  (r : Screenshot) : Screenshot :=
  mkScreenshot (s_id r)
               (patch (us_projectId input) (s_projectId r))
               (s_userId r) (s_originalImageUrl r)
               (patch (us_editedImageUrl input) (s_editedImageUrl r))
               (patch (us_width input) (s_width r))
               (patch (us_height input) (s_height r))
               (s_createdAt r) now.

Inductive ActionName : Type :=
| CreateProject
| UpdateProject
| ListProjects
| CreateScreenshot
| UpdateScreenshot
| ListScreenshots
| CreateScreenshotEdit
| ListScreenshotEdits.

(** One call of an action: its name, the raw input, the caller's context
    and what the invocation reads from its environment. *)
Record Request : Type := mkRequest {
  action : ActionName;
  input : jsval;
  context : Context;
  env : Env
}.

Section Actions.

(** [tables.ts] declares [Screenshots.projectId] and
    [ScreenshotEdits.screenshotId] with [references]; whether the store
    behind [db] rejects a dangling reference is a property of its
    configuration, so it is left open. *)
Variable enforce_references : bool.

(** ** Statements on the store

    A statement the store accepts answers with its rows as they are
    stored.  What a driver may do to a value on its way back is left
    out: refusing to decode an integer outside the safe range, after the
    write has happened, or cutting a text at a NUL character.  Numbers
    are integers.  The properties that would feel the difference are
    stated for a successful call, or carry the safe range as a
    hypothesis ([safe_integer], [readable_screenshot]). *)

Definition select_projects (where_ : Project -> bool) : M (list Project) :=
  fun st =>
    (Ok (filter where_ (ScreenshotProjects st)), log (Select TScreenshotProjects) st).

Definition select_screenshots (where_ : Screenshot -> bool) : M (list Screenshot) :=
  fun st =>
    (Ok (filter where_ (Screenshots st)), log (Select TScreenshots) st).

Definition select_edits (where_ : ScreenshotEdit -> bool) : M (list ScreenshotEdit) :=
  fun st =>
    (Ok (filter where_ (ScreenshotEdits st)), log (Select TScreenshotEdits) st).

Definition project_exists (id : string) (st : Store) : bool :=
  existsb (fun r => p_id r =? id)%string (ScreenshotProjects st).

Definition screenshot_exists (id : string) (st : Store) : bool :=
  existsb (fun r => s_id r =? id)%string (Screenshots st).

Definition edit_exists (id : string) (st : Store) : bool :=
  existsb (fun r => e_id r =? id)%string (ScreenshotEdits st).

(** A non-NULL [projectId] is acceptable to the store when references are
    not enforced or the project exists. *)
Definition project_reference_ok (projectId : option string) (st : Store) : bool :=
  match projectId with
  | None => true
  | Some p => negb enforce_references || project_exists p st
  end.

Definition screenshot_reference_ok (screenshotId : string) (st : Store) : bool :=
  negb enforce_references || screenshot_exists screenshotId st.

(** [db.insert(T).values(row).returning()]: [id] is the primary key. *)
Definition insert_project (row : Project) : M (list Project) :=
  fun st =>
    let st' := log (Insert TScreenshotProjects) st in
    if project_exists (p_id row) st then
      (Err (ConstraintError (PrimaryKey TScreenshotProjects)), st')
    else
      (Ok [row], with_projects (ScreenshotProjects st ++ [row]) st').

Definition insert_screenshot (row : Screenshot) : M (list Screenshot) :=
  fun st =>
    let st' := log (Insert TScreenshots) st in
    if screenshot_exists (s_id row) st then
      (Err (ConstraintError (PrimaryKey TScreenshots)), st')
    else if negb (project_reference_ok (s_projectId row) st) then
      (Err (ConstraintError (ForeignKey TScreenshots)), st')
    else
      (Ok [row], with_screenshots (Screenshots st ++ [row]) st').

Definition insert_edit (row : ScreenshotEdit) : M (list ScreenshotEdit) :=
  fun st =>
    let st' := log (Insert TScreenshotEdits) st in
    if edit_exists (e_id row) st then
      (Err (ConstraintError (PrimaryKey TScreenshotEdits)), st')
    else if negb (screenshot_reference_ok (e_screenshotId row) st) then
      (Err (ConstraintError (ForeignKey TScreenshotEdits)), st')
    else
      (Ok [row], with_edits (ScreenshotEdits st ++ [row]) st').

(** [db.update(T).set(...).where(...).returning()]: every row selected by
    [where_] is rewritten by [set]; the rewritten rows are returned. *)
Definition update_projects (set : Project -> Project) (where_ : Project -> bool)
  : M (list Project) :=
  fun st =>
    let st' := log (Update TScreenshotProjects) st in
    (Ok (map set (filter where_ (ScreenshotProjects st))),
     with_projects
       (map (fun r => if where_ r then set r else r) (ScreenshotProjects st)) st').

Definition update_screenshots (set : Screenshot -> Screenshot)
  (where_ : Screenshot -> bool) : M (list Screenshot) :=
  fun st =>
    let st' := log (Update TScreenshots) st in
    let updated := map set (filter where_ (Screenshots st)) in
    if forallb (fun r => project_reference_ok (s_projectId r) st) updated then
      (Ok updated,
       with_screenshots
         (map (fun r => if where_ r then set r else r) (Screenshots st)) st')
    else
      (Err (ConstraintError (ForeignKey TScreenshots)), st').

(** ** The ownership resolvers *)

Definition getOwnedProject (projectId userId : string) : M Project :=
  rows <- select_projects
            (fun r => (p_id r =? projectId)%string && (p_userId r =? userId)%string) ;;
  match rows with
  | project :: _ => ret project
  | [] => throw (ActionError NOT_FOUND "Project not found.")
  end.

Definition getOwnedScreenshot (screenshotId userId : string) : M Screenshot :=
  rows <- select_screenshots
            (fun r => (s_id r =? screenshotId)%string && (s_userId r =? userId)%string) ;;
  match rows with
  | shot :: _ => ret shot
  | [] => throw (ActionError NOT_FOUND "Screenshot not found.")
  end.

(** ** The handlers *)

Definition createProject (input : CreateProjectInput) (context : Context)
  (env : Env) : M Response :=
  user <- lift (requireUser context) ;;
  let now := new_Date env in
  rows <- insert_project
            (mkProject (randomUUID env) (user_id user)
                       (cp_title input) (cp_description input)
                       (cp_sourceDevice input) (cp_sourceApp input)
                       now now) ;;
  ret (ProjectData (hd_error rows)).

Definition updateProject (input : UpdateProjectInput) (context : Context)
  (env : Env) : M Response :=
  user <- lift (requireUser context) ;;
  getOwnedProject (up_id input) (user_id user) ;;;
  rows <- update_projects
            (updateProject_set input (new_Date env))
            (fun r => (p_id r =? up_id input)%string) ;;
  ret (ProjectData (hd_error rows)).

Definition listProjects (_input : option unit) (context : Context)
  (env : Env) : M Response :=
  user <- lift (requireUser context) ;;
  projects <- select_projects (fun r => (p_userId r =? user_id user)%string) ;;
  ret (ProjectList projects (length projects)).

Definition createScreenshot (input : CreateScreenshotInput) (context : Context)
  (env : Env) : M Response :=
  user <- lift (requireUser context) ;;
  (if truthy (cs_projectId input) then
     match cs_projectId input with
     | Some projectId => getOwnedProject projectId (user_id user) ;;; ret tt
     | None => ret tt
     end
   else ret tt) ;;;
  let now := new_Date env in
  rows <- insert_screenshot
            (mkScreenshot (randomUUID env) (cs_projectId input) (user_id user)
                          (cs_originalImageUrl input) (cs_editedImageUrl input)
                          (cs_width input) (cs_height input)
                          now now) ;;
  ret (ScreenshotData (hd_error rows)).

Definition updateScreenshot (input : UpdateScreenshotInput) (context : Context)
  (env : Env) : M Response :=
  user <- lift (requireUser context) ;;
  existing <- select_screenshots
                (fun r => (s_id r =? us_id input)%string &&
                          (s_userId r =? user_id user)%string) ;;
  match existing with
  | [] => throw (ActionError NOT_FOUND "Screenshot not found.")
  | _ :: _ =>
      match us_projectId input with
      | Some projectId => getOwnedProject projectId (user_id user) ;;; ret tt
      | None => ret tt
      end ;;;
      rows <- update_screenshots
                (updateScreenshot_set input (new_Date env))
                (fun r => (s_id r =? us_id input)%string) ;;
      ret (ScreenshotData (hd_error rows))
  end.

Definition listScreenshots (input : ListScreenshotsInput) (context : Context)
  (env : Env) : M Response :=
  user <- lift (requireUser context) ;;
  (if truthy (ls_projectId input) then
     match ls_projectId input with
     | Some projectId => getOwnedProject projectId (user_id user) ;;; ret tt
     | None => ret tt
     end
   else ret tt) ;;;
  let filters :=
    (fun r : Screenshot => (s_userId r =? user_id user)%string) ::
    (if truthy (ls_projectId input) then
       [fun r : Screenshot =>
          match s_projectId r, ls_projectId input with
          | Some p, Some projectId => (p =? projectId)%string
          | _, _ => false
          end]
     else []) in
  screenshots <- select_screenshots
                   (fun r => forallb (fun f => f r) filters) ;;
  ret (ScreenshotList screenshots (length screenshots)).

Definition createScreenshotEdit (input : CreateScreenshotEditInput)
  (context : Context) (env : Env) : M Response :=
  user <- lift (requireUser context) ;;
  getOwnedScreenshot (ce_screenshotId input) (user_id user) ;;;
  rows <- insert_edit
            (mkScreenshotEdit (randomUUID env) (ce_screenshotId input)
                              (user_id user) (ce_editType input)
                              (ce_operationsJson input) (ce_resultImageUrl input)
                              (new_Date env)) ;;
  ret (EditData (hd_error rows)).

Definition listScreenshotEdits (input : ListScreenshotEditsInput)
  (context : Context) (env : Env) : M Response :=
  user <- lift (requireUser context) ;;
  getOwnedScreenshot (le_screenshotId input) (user_id user) ;;;
  edits <- select_edits
             (fun r => (e_screenshotId r =? le_screenshotId input)%string) ;;
  ret (EditList edits (length edits)).

(** ** [defineAction] and the exported [server] *)

(** The framework parses the raw input with the declared schema and calls
    the handler on the parsed input; a rejected input never reaches the
    handler. *)
Definition defineAction {I} (input : schema I)
  (handler : I -> Context -> Env -> M Response)
  : jsval -> Context -> Env -> M Response :=
  fun raw context env =>
    match input raw with
    | Some parsed => handler parsed context env
    | None => throw ValidationError
    end.

Definition server (a : ActionName) : jsval -> Context -> Env -> M Response :=
  match a with
  | CreateProject => defineAction createProject_input createProject
  | UpdateProject => defineAction updateProject_input updateProject
  | ListProjects => defineAction listProjects_input listProjects
  | CreateScreenshot => defineAction createScreenshot_input createScreenshot
  | UpdateScreenshot => defineAction updateScreenshot_input updateScreenshot
  | ListScreenshots => defineAction listScreenshots_input listScreenshots
  | CreateScreenshotEdit =>
      defineAction createScreenshotEdit_input createScreenshotEdit
  | ListScreenshotEdits =>
      defineAction listScreenshotEdits_input listScreenshotEdits
  end.

(** Whether the schema of an action accepts a raw input. *)
Definition accepts (a : ActionName) (raw : jsval) : bool :=
  match a with
  | CreateProject => defined (createProject_input raw)
  | UpdateProject => defined (updateProject_input raw)
  | ListProjects => defined (listProjects_input raw)
  | CreateScreenshot => defined (createScreenshot_input raw)
  | UpdateScreenshot => defined (updateScreenshot_input raw)
  | ListScreenshots => defined (listScreenshots_input raw)
  | CreateScreenshotEdit => defined (createScreenshotEdit_input raw)
  | ListScreenshotEdits => defined (listScreenshotEdits_input raw)
  end.

(** ** Runs of the system *)

Definition call (r : Request) : M Response :=
  server (action r) (input r) (context r) (env r).

Definition step (r : Request) (st : Store) : Store := snd (call r st).

Definition run (rs : list Request) (st : Store) : Store :=
  fold_left (fun s r => step r s) rs st.

(** The stores that exist after some sequence of calls on the empty
    store, together with the latest reading of the clock.  Every call
    draws a UUID, and the clock is never read earlier than before. *)
Inductive reachable : Store -> Z -> Prop :=
| reachable_empty : forall t, reachable empty_store t
| reachable_step : forall st t r,
    reachable st t ->
    t <= new_Date (env r) ->
    is_uuid (randomUUID (env r)) = true ->
    reachable (step r st) (new_Date (env r)).

(** ** Invariants of the reachable stores *)

(** The primary keys. *)
Definition unique_ids (st : Store) : Prop :=
  NoDup (map p_id (ScreenshotProjects st)) /\
  NoDup (map s_id (Screenshots st)) /\
  NoDup (map e_id (ScreenshotEdits st)).

(** Every id was drawn by [crypto.randomUUID()]. *)
Definition uuid_ids (st : Store) : Prop :=
  Forall (fun r => is_uuid (p_id r) = true) (ScreenshotProjects st) /\
  Forall (fun r => is_uuid (s_id r) = true) (Screenshots st).

(** No row was touched after the latest reading [t] of the clock. *)
Definition stamped_before (t : Z) (st : Store) : Prop :=
  Forall (fun r => p_updatedAt r <= t) (ScreenshotProjects st) /\
  Forall (fun r => s_updatedAt r <= t) (Screenshots st).

(** Every edit points at a screenshot of the edit's own user. *)
Definition edits_follow_screenshots (st : Store) : Prop :=
  forall e, In e (ScreenshotEdits st) ->
    exists s, In s (Screenshots st) /\
              s_id s = e_screenshotId e /\ s_userId s = e_userId e.

(** Every screenshot with a non-empty [projectId] points at a project of
    the screenshot's own user. *)
Definition screenshots_follow_projects (st : Store) : Prop :=
  forall s pid, In s (Screenshots st) ->
    s_projectId s = Some pid -> pid <> "" ->
    exists p, In p (ScreenshotProjects st) /\
              p_id p = pid /\ p_userId p = s_userId s.

(** Everything that holds of a reachable store. *)
Record invariant (t : Z) (st : Store) : Prop := mkInvariant {
  inv_unique : unique_ids st;
  inv_uuid : uuid_ids st;
  inv_stamped : stamped_before t st;
  inv_edits : edits_follow_screenshots st;
  inv_screenshots : screenshots_follow_projects st
}.

(** A run whose calls read a clock that does not go back and draw
    UUIDs: the executable counterpart of [reachable]. *)
Fixpoint well_timed (t : Z) (rs : list Request) : bool :=
  match rs with
  | [] => true
  | r :: rest =>
      (t <=? new_Date (env r)) && is_uuid (randomUUID (env r)) &&
      well_timed (new_Date (env r)) rest
  end.

Definition last_reading (t : Z) (rs : list Request) : Z :=
  fold_left (fun _ r => new_Date (env r)) rs t.

(** A column after a partial update: the supplied value, or the previous
    one when the field was not supplied. *)
Definition partially_updated {A} (supplied previous current : option A) : Prop :=
  match supplied with
  | Some v => current = Some v
  | None => current = previous
  end.

(** Whether [requireUser] finds a user in the context. *)
Definition authenticated (context : Context) : bool :=
  match requireUser context with
  | Ok _ => true
  | Err _ => false
  end.

(** No row with this id belongs to this user: the id is unknown, or
    every row that has it is someone else's. *)
Definition no_owned_project (id uid : string) (st : Store) : Prop :=
  forall p, In p (ScreenshotProjects st) -> p_id p = id -> p_userId p <> uid.

Definition no_owned_screenshot (id uid : string) (st : Store) : Prop :=
  forall s, In s (Screenshots st) -> s_id s = id -> s_userId s <> uid.

Definition project_not_found {A} : Result A :=
  Err (ActionError NOT_FOUND "Project not found.").

Definition screenshot_not_found {A} : Result A :=
  Err (ActionError NOT_FOUND "Screenshot not found.").


(** ** A small history, for concrete runs

    Alice creates a project, Bob creates one, Alice files a screenshot
    under hers, Bob files one under no project, and Alice records a crop
    of her screenshot. *)

Definition alice : Context := mkContext (Some (mkLocals (Some (mkUser "alice")))).
Definition bob : Context := mkContext (Some (mkLocals (Some (mkUser "bob")))).
Definition signed_out : Context := mkContext (Some (mkLocals None)).

Definition uuid_1 : string := "0b6f0a52-0000-4000-8000-000000000001".
Definition uuid_2 : string := "0b6f0a52-0000-4000-8000-000000000002".
Definition uuid_3 : string := "0b6f0a52-0000-4000-8000-000000000003".
Definition uuid_4 : string := "0b6f0a52-0000-4000-8000-000000000004".
Definition uuid_5 : string := "0b6f0a52-0000-4000-8000-000000000005".
Definition uuid_6 : string := "0b6f0a52-0000-4000-8000-000000000006".

Definition history : list Request :=
  [ mkRequest CreateProject
      (JObject [("title", JString "Bug report"); ("userId", JString "bob")])
      alice (mkEnv uuid_1 10);
    mkRequest CreateProject (JObject []) bob (mkEnv uuid_2 11);
    mkRequest CreateScreenshot
      (JObject [("projectId", JString uuid_1);
                ("originalImageUrl", JString "img://1")])
      alice (mkEnv uuid_3 12);
    mkRequest CreateScreenshot
      (JObject [("originalImageUrl", JString "img://2")])
      bob (mkEnv uuid_4 13);
    mkRequest CreateScreenshotEdit
      (JObject [("screenshotId", JString uuid_3); ("editType", JString "crop")])
      alice (mkEnv uuid_5 14) ].

Definition alice_project : Project :=
  mkProject uuid_1 "alice" (Some "Bug report") None None None 10 10.
Definition bob_project : Project :=
  mkProject uuid_2 "bob" None None None None 11 11.
Definition alice_screenshot : Screenshot :=
  mkScreenshot uuid_3 (Some uuid_1) "alice" "img://1" None None None 12 12.
Definition bob_screenshot : Screenshot :=
  mkScreenshot uuid_4 None "bob" "img://2" None None None 13 13.
Definition alice_edit : ScreenshotEdit :=
  mkScreenshotEdit uuid_5 uuid_3 "alice" (Some "crop") None None 14.

(** Alice's project after she sets [sourceApp] at time 20. *)
Definition alice_project_updated : Project :=
  mkProject uuid_1 "alice" (Some "Bug report") None None (Some "Chrome") 10 20.

(** The store the history leaves behind. *)
Definition after_history : Store :=
  mkStore [alice_project; bob_project] [alice_screenshot; bob_screenshot]
          [alice_edit]
          [Insert TScreenshotProjects; Insert TScreenshotProjects;
           Select TScreenshotProjects; Insert TScreenshots;
           Insert TScreenshots; Select TScreenshots; Insert TScreenshotEdits].

(** ** Vocabulary of the further properties *)

(** The rows of the three tables, leaving the statement log aside. *)
Definition same_rows (st st' : Store) : Prop :=
  ScreenshotProjects st' = ScreenshotProjects st /\
  Screenshots st' = Screenshots st /\
  ScreenshotEdits st' = ScreenshotEdits st.

Definition is_select (q : Query) : bool :=
  match q with
  | Select _ => true
  | _ => false
  end.

(** The keys each input schema declares. *)
Definition declared_keys (a : ActionName) : list string :=
  match a with
  | CreateProject => ["title"; "description"; "sourceDevice"; "sourceApp"]
  | UpdateProject => ["id"; "title"; "description"; "sourceDevice"; "sourceApp"]
  | ListProjects => []
  | CreateScreenshot =>
      ["projectId"; "originalImageUrl"; "editedImageUrl"; "width"; "height"]
  | UpdateScreenshot => ["id"; "projectId"; "editedImageUrl"; "width"; "height"]
  | ListScreenshots => ["projectId"]
  | CreateScreenshotEdit =>
      ["screenshotId"; "editType"; "operationsJson"; "resultImageUrl"]
  | ListScreenshotEdits => ["screenshotId"]
  end.

(** The key a schema declares with [z.string().min(1)], if any. *)
Definition required_key (a : ActionName) : option string :=
  match a with
  | UpdateProject | UpdateScreenshot => Some "id"
  | CreateScreenshot => Some "originalImageUrl"
  | CreateScreenshotEdit | ListScreenshotEdits => Some "screenshotId"
  | CreateProject | ListProjects | ListScreenshots => None
  end.

Definition nonempty_string (v : jsval) : bool :=
  match v with
  | JString s => negb (s =? "")%string
  | _ => false
  end.

Definition is_object (v : jsval) : bool :=
  match v with
  | JObject _ => true
  | _ => false
  end.

(** Timestamps in order: created, then last updated, then the latest
    reading [t] of the clock. *)
Definition well_stamped (t : Z) (st : Store) : Prop :=
  Forall (fun p => p_createdAt p <= p_updatedAt p <= t) (ScreenshotProjects st) /\
  Forall (fun s => s_createdAt s <= s_updatedAt s <= t) (Screenshots st) /\
  Forall (fun e => e_createdAt e <= t) (ScreenshotEdits st).

(** The rows of one user, table by table. *)
Definition projects_of (uid : string) (st : Store) : list Project :=
  filter (fun p => (p_userId p =? uid)%string) (ScreenshotProjects st).

Definition screenshots_of (uid : string) (st : Store) : list Screenshot :=
  filter (fun s => (s_userId s =? uid)%string) (Screenshots st).


(** The screenshots of one user filed under one project. *)
Definition screenshots_in (pid uid : string) (st : Store) : list Screenshot :=
  filter (fun s => (s_userId s =? uid)%string &&
                   match s_projectId s with
                   | Some p => (p =? pid)%string
                   | None => false
                   end)
         (Screenshots st).

(** The table an action works on. *)
Definition table_of (a : ActionName) : Table :=
  match a with
  | CreateProject | UpdateProject | ListProjects => TScreenshotProjects
  | CreateScreenshot | UpdateScreenshot | ListScreenshots => TScreenshots
  | CreateScreenshotEdit | ListScreenshotEdits => TScreenshotEdits
  end.

(** Further rows of the small history: a blur Alice records at time 15,
    and a second screenshot she files under her project. *)
Definition alice_blur : ScreenshotEdit :=
  mkScreenshotEdit uuid_6 uuid_3 "alice" (Some "blur") None None 15.

Definition alice_second_screenshot : Screenshot :=
  mkScreenshot uuid_6 (Some uuid_1) "alice" "img://3" None None None 15 15.

(** What the store's driver hands back unharmed: an integer that
    JavaScript represents exactly ([Number.isSafeInteger]).  The
    properties below that speak of a screenshot being read back, or of a
    call succeeding after its write, are stated for such numbers. *)
Definition safe_integer (n : Z) : bool := Z.abs n <? 2 ^ 53.

Definition safe_or_absent (o : option Z) : bool :=
  match o with
  | Some n => safe_integer n
  | None => true
  end.

Definition readable_screenshot (s : Screenshot) : bool :=
  safe_or_absent (s_width s) && safe_or_absent (s_height s).

(** The same test on a raw input: [width] and [height], when they are
    numbers. *)
Definition safe_number (v : jsval) : bool :=
  match v with
  | JNumber n => safe_integer n
  | _ => true
  end.

Definition safe_numbers (raw : jsval) : bool :=
  match raw with
  | JObject fields =>
      safe_number (prop "width" fields) && safe_number (prop "height" fields)
  | _ => true
  end.

(** Alice's project after an update made with the clock set back to 5. *)
Definition alice_project_set_back : Project :=
  mkProject uuid_1 "alice" (Some "Bug report") None None (Some "Chrome") 10 5.

(** ** Proof automation *)

Ltac unfold_actions :=
  unfold step, call, server, defineAction,
    createProject, updateProject, listProjects, createScreenshot,
    updateScreenshot, listScreenshots, createScreenshotEdit,
    listScreenshotEdits, getOwnedProject, getOwnedScreenshot,
    insert_project, insert_screenshot, insert_edit,
    update_projects, update_screenshots,
    select_projects, select_screenshots, select_edits,
    bind, lift, ret, throw in *.

(** Follow every path through the code under scrutiny: case on the
    innermost undecided test first. *)
Ltac split_paths :=
  repeat (simpl in *;
    match goal with
    | |- context [match ?x with _ => _ end] =>
        lazymatch x with
        | context [match _ with _ => _ end] => fail
        | _ => destruct x eqn:?
        end
    end).

(** ** What one call does to each table *)

Lemma filter_head_In : forall {A} (f : A -> bool) (l : list A) (x : A) (rest : list A),
  filter f l = x :: rest -> In x l /\ f x = true.
Proof.
  intros A f l x rest H. apply filter_In. rewrite H. left. reflexivity.
Qed.

Lemma owned_project_found : forall st pid uid p rest,
  filter (fun r => (p_id r =? pid)%string && (p_userId r =? uid)%string)
         (ScreenshotProjects st) = p :: rest ->
  In p (ScreenshotProjects st) /\ p_id p = pid /\ p_userId p = uid.
Proof.
  intros st pid uid p rest H. apply filter_head_In in H. destruct H as [Hin Hb].
  apply andb_true_iff in Hb. destruct Hb as [H1 H2].
  apply String.eqb_eq in H1. apply String.eqb_eq in H2. auto.
Qed.

Lemma owned_screenshot_found : forall st sid uid s rest,
  filter (fun r => (s_id r =? sid)%string && (s_userId r =? uid)%string)
         (Screenshots st) = s :: rest ->
  In s (Screenshots st) /\ s_id s = sid /\ s_userId s = uid.
Proof.
  intros st sid uid s rest H. apply filter_head_In in H. destruct H as [Hin Hb].
  apply andb_true_iff in Hb. destruct Hb as [H1 H2].
  apply String.eqb_eq in H1. apply String.eqb_eq in H2. auto.
Qed.

Lemma truthy_false : forall s, truthy (Some s) = false -> s = "".
Proof.
  intros s H. simpl in H. apply negb_false_iff in H.
  apply String.eqb_eq in H. exact H.
Qed.

Lemma truthy_true : forall o, truthy o = true -> exists s, o = Some s /\ s <> "".
Proof.
  intros [s|] H; simpl in H; [|discriminate].
  exists s. split; [reflexivity|].
  apply negb_true_iff in H. apply String.eqb_neq in H. exact H.
Qed.

(** Turn a successful ownership lookup into facts about the row found. *)
Ltac found :=
  repeat match goal with
  | H : filter _ (ScreenshotProjects _) = _ :: _ |- _ =>
      apply owned_project_found in H; destruct H as (? & ? & ?)
  | H : filter _ (Screenshots _) = _ :: _ |- _ =>
      apply owned_screenshot_found in H; destruct H as (? & ? & ?)
  end.

Lemma step_edits : forall r st,
  ScreenshotEdits (step r st) = ScreenshotEdits st \/
  exists u i,
    ScreenshotEdits (step r st) =
      ScreenshotEdits st ++
      [mkScreenshotEdit (randomUUID (env r)) (ce_screenshotId i) (user_id u)
         (ce_editType i) (ce_operationsJson i) (ce_resultImageUrl i)
         (new_Date (env r))] /\
    requireUser (context r) = Ok u /\
    edit_exists (randomUUID (env r)) st = false /\
    exists s, In s (Screenshots st) /\ s_id s = ce_screenshotId i /\
              s_userId s = user_id u.
Proof.
  intros [a raw ctx e] st. unfold_actions. simpl.
  destruct a; split_paths; try discriminate; auto; found.
  right. exists a, c. split; [reflexivity|]. split; [reflexivity|].
  split; [assumption|]. eauto.
Qed.

Lemma step_projects : forall r st,
  ScreenshotProjects (step r st) = ScreenshotProjects st \/
  (exists u row,
     ScreenshotProjects (step r st) = ScreenshotProjects st ++ [row] /\
     requireUser (context r) = Ok u /\
     project_exists (randomUUID (env r)) st = false /\
     p_id row = randomUUID (env r) /\
     p_userId row = user_id u /\
     p_updatedAt row = new_Date (env r)) \/
  (exists i,
     ScreenshotProjects (step r st) =
       map (fun p => if (p_id p =? up_id i)%string
                     then updateProject_set i (new_Date (env r)) p else p)
           (ScreenshotProjects st)).
Proof.
  intros [a raw ctx e] st. unfold_actions. simpl.
  destruct a; split_paths; try discriminate; auto.
  - right. left. eexists _, _. split; [reflexivity|]. simpl. auto.
  - right. right. exists u. reflexivity.
Qed.

Lemma step_screenshots : forall r st,
  Screenshots (step r st) = Screenshots st \/
  (exists u row,
     Screenshots (step r st) = Screenshots st ++ [row] /\
     requireUser (context r) = Ok u /\
     screenshot_exists (randomUUID (env r)) st = false /\
     s_id row = randomUUID (env r) /\
     s_userId row = user_id u /\
     s_updatedAt row = new_Date (env r) /\
     forall pid, s_projectId row = Some pid -> pid <> "" ->
       exists p, In p (ScreenshotProjects st) /\
                 p_id p = pid /\ p_userId p = user_id u) \/
  (exists u i,
     Screenshots (step r st) =
       map (fun s => if (s_id s =? us_id i)%string
                     then updateScreenshot_set i (new_Date (env r)) s else s)
           (Screenshots st) /\
     requireUser (context r) = Ok u /\
     (exists s, In s (Screenshots st) /\ s_id s = us_id i /\
                s_userId s = user_id u) /\
     forall pid, us_projectId i = Some pid ->
       exists p, In p (ScreenshotProjects st) /\
                 p_id p = pid /\ p_userId p = user_id u).
Proof.
  intros [a raw ctx e] st. unfold_actions. simpl.
  destruct a; split_paths; try discriminate; auto; found.
  all: try (right; left; eexists _, _; split; [reflexivity|]; simpl;
    do 5 (split; [auto|]); intros pid Hp Hne).
  all: try (right; right; eexists _, _; split; [reflexivity|];
    split; [reflexivity|]; split; [eauto|]; intros pid Hp).
  all: try (inversion Hp; subst; eauto; fail).
  all: try (rewrite Hp in *; congruence || (inversion Heqo0; subst; eauto); fail).
  rewrite Hp in Heqb. apply truthy_false in Heqb. contradiction.
Qed.

(** ** The invariants are kept by every call *)

Section Keys.

Context {A : Type} (key : A -> string).

Lemma key_absent : forall (l : list A) (k : string),
  existsb (fun r => (key r =? k)%string) l = false -> ~ In k (map key l).
Proof.
  intros l k H Hin. apply in_map_iff in Hin. destruct Hin as (r & Hk & Hr).
  assert (Ht : existsb (fun r => (key r =? k)%string) l = true).
  { apply existsb_exists. exists r. split; [exact Hr|].
    apply String.eqb_eq. exact Hk. }
  congruence.
Qed.

Lemma keys_after_insert : forall (l : list A) (row : A),
  NoDup (map key l) ->
  existsb (fun r => (key r =? key row)%string) l = false ->
  NoDup (map key (l ++ [row])).
Proof.
  intros l row Hnd Hfresh. rewrite map_app. simpl.
  apply NoDup_app; [exact Hnd | repeat constructor; simpl; tauto |].
  intros k Hk [Heq | []]. subst k.
  exact (key_absent _ _ Hfresh Hk).
Qed.

Lemma keys_after_update : forall (set : A -> A) (where_ : A -> bool) (l : list A),
  (forall r, key (set r) = key r) ->
  map key (map (fun r => if where_ r then set r else r) l) = map key l.
Proof.
  intros set where_ l Hset. rewrite map_map. apply map_ext.
  intros r. destruct (where_ r); [apply Hset | reflexivity].
Qed.

Lemma same_key_same_row : forall (l : list A) (x y : A),
  NoDup (map key l) -> In x l -> In y l -> key x = key y -> x = y.
Proof.
  induction l as [|a l IH]; intros x y Hnd Hx Hy Hk; [destruct Hx|].
  simpl in Hnd. inversion Hnd as [|? ? Hnotin Hnd']; subst.
  destruct Hx as [Hx | Hx]; destruct Hy as [Hy | Hy]; subst.
  - reflexivity.
  - exfalso. apply Hnotin. rewrite Hk. apply in_map. exact Hy.
  - exfalso. apply Hnotin. rewrite <- Hk. apply in_map. exact Hx.
  - apply IH; assumption.
Qed.

End Keys.

Lemma unique_ids_step : forall r st,
  unique_ids st -> unique_ids (step r st).
Proof.
  intros r st (Hp & Hs & He). unfold unique_ids. repeat split.
  - destruct (step_projects r st) as [E | [(u & row & E & _ & Hfresh & Hid & _) | (i & E)]];
      rewrite E.
    + exact Hp.
    + apply keys_after_insert; [exact Hp|]. rewrite Hid. exact Hfresh.
    + rewrite keys_after_update; [exact Hp | reflexivity].
  - destruct (step_screenshots r st)
      as [E | [(u & row & E & _ & Hfresh & Hid & _) | (u & i & E & _)]]; rewrite E.
    + exact Hs.
    + apply keys_after_insert; [exact Hs|]. rewrite Hid. exact Hfresh.
    + rewrite keys_after_update; [exact Hs | reflexivity].
  - destruct (step_edits r st) as [E | (u & i & E & _ & Hfresh & _)]; rewrite E.
    + exact He.
    + apply keys_after_insert; [exact He|]. exact Hfresh.
Qed.

Lemma uuid_ids_step : forall r st,
  is_uuid (randomUUID (env r)) = true ->
  uuid_ids st -> uuid_ids (step r st).
Proof.
  intros r st Hu (Hp & Hs). unfold uuid_ids. split.
  - destruct (step_projects r st) as [E | [(u & row & E & _ & _ & Hid & _) | (i & E)]];
      rewrite E.
    + exact Hp.
    + apply Forall_app. split; [exact Hp|]. constructor; [|constructor].
      rewrite Hid. exact Hu.
    + apply Forall_map. eapply Forall_impl; [|exact Hp].
      intros p H. simpl in H. destruct (p_id p =? up_id i)%string; exact H.
  - destruct (step_screenshots r st)
      as [E | [(u & row & E & _ & _ & Hid & _) | (u & i & E & _)]]; rewrite E.
    + exact Hs.
    + apply Forall_app. split; [exact Hs|]. constructor; [|constructor].
      rewrite Hid. exact Hu.
    + apply Forall_map. eapply Forall_impl; [|exact Hs].
      intros s H. simpl in H. destruct (s_id s =? us_id i)%string; exact H.
Qed.

Lemma stamped_before_step : forall r st t,
  t <= new_Date (env r) ->
  stamped_before t st -> stamped_before (new_Date (env r)) (step r st).
Proof.
  intros r st t Ht (Hp & Hs). unfold stamped_before. split.
  - destruct (step_projects r st)
      as [E | [(u & row & E & _ & _ & _ & _ & Hat) | (i & E)]]; rewrite E.
    + eapply Forall_impl; [|exact Hp]. simpl. intros; lia.
    + apply Forall_app. split.
      * eapply Forall_impl; [|exact Hp]. simpl. intros; lia.
      * constructor; [|constructor]. rewrite Hat. lia.
    + apply Forall_map. eapply Forall_impl; [|exact Hp].
      intros p H. simpl in H. destruct (p_id p =? up_id i)%string; simpl; lia.
  - destruct (step_screenshots r st)
      as [E | [(u & row & E & _ & _ & _ & _ & Hat & _) | (u & i & E & _)]];
      rewrite E.
    + eapply Forall_impl; [|exact Hs]. simpl. intros; lia.
    + apply Forall_app. split.
      * eapply Forall_impl; [|exact Hs]. simpl. intros; lia.
      * constructor; [|constructor]. rewrite Hat. lia.
    + apply Forall_map. eapply Forall_impl; [|exact Hs].
      intros s H. simpl in H. destruct (s_id s =? us_id i)%string; simpl; lia.
Qed.

(** Rows are never removed, and keep their id and owner. *)
Lemma projects_persist : forall r st p,
  In p (ScreenshotProjects st) ->
  exists p', In p' (ScreenshotProjects (step r st)) /\
             p_id p' = p_id p /\ p_userId p' = p_userId p.
Proof.
  intros r st p Hin.
  destruct (step_projects r st) as [E | [(u & row & E & _) | (i & E)]]; rewrite E.
  - exists p. auto.
  - exists p. split; [apply in_or_app; left; exact Hin | auto].
  - exists (if (p_id p =? up_id i)%string
            then updateProject_set i (new_Date (env r)) p else p).
    split.
    + apply (in_map (fun p => if (p_id p =? up_id i)%string
                              then updateProject_set i (new_Date (env r)) p
                              else p)). exact Hin.
    + destruct (p_id p =? up_id i)%string; auto.
Qed.

Lemma screenshots_persist : forall r st s,
  In s (Screenshots st) ->
  exists s', In s' (Screenshots (step r st)) /\
             s_id s' = s_id s /\ s_userId s' = s_userId s.
Proof.
  intros r st s Hin.
  destruct (step_screenshots r st) as [E | [(u & row & E & _) | (u & i & E & _)]];
    rewrite E.
  - exists s. auto.
  - exists s. split; [apply in_or_app; left; exact Hin | auto].
  - exists (if (s_id s =? us_id i)%string
            then updateScreenshot_set i (new_Date (env r)) s else s).
    split.
    + apply (in_map (fun s => if (s_id s =? us_id i)%string
                              then updateScreenshot_set i (new_Date (env r)) s
                              else s)). exact Hin.
    + destruct (s_id s =? us_id i)%string; auto.
Qed.

Lemma edits_follow_screenshots_step : forall r st,
  edits_follow_screenshots st -> edits_follow_screenshots (step r st).
Proof.
  intros r st Hinv e Hin.
  assert (Hold : exists s, In s (Screenshots st) /\
                           s_id s = e_screenshotId e /\ s_userId s = e_userId e).
  { destruct (step_edits r st) as [E | (u & i & E & _ & _ & s & Hs & Hid & Hown)];
      rewrite E in Hin.
    - apply Hinv. exact Hin.
    - apply in_app_or in Hin. destruct Hin as [Hin | [Hin | []]].
      + apply Hinv. exact Hin.
      + subst e. simpl. eauto. }
  destruct Hold as (s & Hs & Hid & Hown).
  destruct (screenshots_persist r st s Hs) as (s' & Hs' & Hid' & Hown').
  exists s'. split; [exact Hs'|]. split; congruence.
Qed.

Lemma screenshots_follow_projects_step : forall r st,
  unique_ids st ->
  screenshots_follow_projects st -> screenshots_follow_projects (step r st).
Proof.
  intros r st (_ & Huniq & _) Hinv s' pid Hin Hpid Hne.
  assert (Hold : exists p, In p (ScreenshotProjects st) /\
                           p_id p = pid /\ p_userId p = s_userId s').
  { destruct (step_screenshots r st)
      as [E | [(u & row & E & _ & _ & _ & Hown & _ & Hproj)
              | (u & i & E & _ & (s0 & Hs0 & Hid0 & Hown0) & Hproj)]];
      rewrite E in Hin.
    - eapply Hinv; eauto.
    - apply in_app_or in Hin. destruct Hin as [Hin | [Hin | []]].
      + eapply Hinv; eauto.
      + subst s'. rewrite Hown. apply Hproj; assumption.
    - apply in_map_iff in Hin. destruct Hin as (s & Hs' & Hs).
      destruct (s_id s =? us_id i)%string eqn:Hsel.
      + apply String.eqb_eq in Hsel.
        assert (s = s0)
          by (apply (same_key_same_row s_id (Screenshots st)); congruence).
        subst s0. subst s'. simpl in *.
        destruct (us_projectId i) as [pid'|] eqn:Hsup; simpl in Hpid.
        * inversion Hpid; subst pid'. rewrite Hown0. apply Hproj. reflexivity.
        * eapply Hinv; eauto.
      + subst s'. eapply Hinv; eauto. }
  destruct Hold as (p & Hp & Hid & Hown).
  destruct (projects_persist r st p Hp) as (p' & Hp' & Hid' & Hown').
  exists p'. split; [exact Hp'|]. split; congruence.
Qed.


Lemma reachable_invariant : forall st t, reachable st t -> invariant t st.
Proof.
  induction 1 as [t | st t r Hreach IH Hclock Huuid].
  - constructor.
    + repeat split; constructor.
    + split; constructor.
    + split; constructor.
    + intros e [].
    + intros s pid [].
  - destruct IH as [Hu Hid Hst He Hs]. constructor.
    + apply unique_ids_step; assumption.
    + apply uuid_ids_step; assumption.
    + eapply stamped_before_step; eassumption.
    + apply edits_follow_screenshots_step; assumption.
    + apply screenshots_follow_projects_step; assumption.
Qed.


(** A well-timed run from the empty store ends in a reachable store. *)

Lemma run_reachable_from : forall rs st t,
  reachable st t -> well_timed t rs = true ->
  reachable (run rs st) (last_reading t rs).
Proof.
  induction rs as [|r rs IH]; intros st t Hreach Hwt; simpl in *.
  - exact Hreach.
  - apply andb_true_iff in Hwt. destruct Hwt as [Hwt Hrest].
    apply andb_true_iff in Hwt. destruct Hwt as [Hclock Huuid].
    apply IH; [|exact Hrest].
    apply (reachable_step st t r); [exact Hreach | | exact Huuid].
    apply Z.leb_le. exact Hclock.
Qed.

Lemma run_reachable : forall rs t,
  well_timed t rs = true ->
  reachable (run rs empty_store) (last_reading t rs).
Proof.
  intros rs t H. apply run_reachable_from; [apply reachable_empty | exact H].
Qed.

(** ** Tenant isolation of the listings *)




(** What [listScreenshots] keeps of the table: the caller's rows, and of
    those the rows of the project when a non-empty [projectId] is given. *)
Lemma listScreenshots_filter : forall i uid (s : Screenshot),
  forallb (fun f => f s)
    ((fun r : Screenshot => (s_userId r =? uid)%string) ::
     (if truthy (ls_projectId i) then
        [fun r : Screenshot =>
           match s_projectId r, ls_projectId i with
           | Some p, Some projectId => (p =? projectId)%string
           | _, _ => false
           end]
      else [])) = true <->
  s_userId s = uid /\
  (forall pid, ls_projectId i = Some pid -> pid <> "" -> s_projectId s = Some pid).
Proof.
  intros i uid s. simpl. rewrite andb_true_iff, String.eqb_eq.
  destruct (ls_projectId i) as [pid|] eqn:Hpid; simpl.
  - destruct (pid =? "")%string eqn:Hempty; simpl.
    + apply String.eqb_eq in Hempty. subst pid. split.
      * intros [Hu _]. split; [exact Hu|]. intros pid Hp Hne. congruence.
      * intros [Hu _]. auto.
    + apply String.eqb_neq in Hempty. rewrite andb_true_r. split.
      * intros [Hu Hp]. split; [exact Hu|]. intros pid' Hp' _.
        inversion Hp'; subst pid'.
        destruct (s_projectId s) as [p|]; [|discriminate].
        apply String.eqb_eq in Hp. congruence.
      * intros [Hu Hp]. split; [exact Hu|].
        rewrite (Hp pid eq_refl Hempty). apply String.eqb_refl.
  - split.
    + intros [Hu _]. split; [exact Hu|]. intros pid Hp. discriminate.
    + intros [Hu _]. auto.
Qed.

Lemma listScreenshots_rows : forall raw ctx env st u resp,
  requireUser ctx = Ok u ->
  fst (server ListScreenshots raw ctx env st) = Ok resp ->
  exists i keep,
    listScreenshots_input raw = Some i /\
    resp = ScreenshotList (filter keep (Screenshots st))
                          (length (filter keep (Screenshots st))) /\
    forall s, keep s = true <->
      s_userId s = user_id u /\
      (forall pid, ls_projectId i = Some pid -> pid <> "" ->
         s_projectId s = Some pid).
Proof.
  intros raw ctx env st u resp Hu H. unfold_actions. rewrite Hu in H.
  destruct (listScreenshots_input raw) as [i|]; simpl in H; [|discriminate].
  exists i. destruct i as [o]. simpl in *.
  destruct o as [pid|]; simpl in H;
    [destruct (pid =? "")%string eqn:Hempty; simpl in H|].
  - inversion H. eexists. split; [reflexivity|]. split; [reflexivity|].
    intros s.
    pose proof (listScreenshots_filter (mkListScreenshotsInput (Some pid))
                  (user_id u) s) as F.
    simpl in F. rewrite Hempty in F. exact F.
  - destruct (filter _ (ScreenshotProjects st)); simpl in H; [discriminate|].
    inversion H. eexists. split; [reflexivity|]. split; [reflexivity|].
    intros s.
    pose proof (listScreenshots_filter (mkListScreenshotsInput (Some pid))
                  (user_id u) s) as F.
    simpl in F. rewrite Hempty in F. exact F.
  - inversion H. eexists. split; [reflexivity|]. split; [reflexivity|].
    intros s.
    exact (listScreenshots_filter (mkListScreenshotsInput None) (user_id u) s).
Qed.


(** ** Creation *)

(** C2. A successful [createProject], [createScreenshot] or
    [createScreenshotEdit] was called by an authenticated user, returns
    the row it appended to its table, and that row's [userId] is the
    caller's id; this holds for every raw input, so no field of the input
    decides the owner. *)
Theorem created_row_is_owned_by_caller :
  forall a raw ctx env st resp st',
    In a [CreateProject; CreateScreenshot; CreateScreenshotEdit] ->
    server a raw ctx env st = (Ok resp, st') ->
    exists u,
      requireUser ctx = Ok u /\
      match resp with
      | ProjectData (Some p) =>
          p_userId p = user_id u /\
          ScreenshotProjects st' = ScreenshotProjects st ++ [p]
      | ScreenshotData (Some s) =>
          s_userId s = user_id u /\
          Screenshots st' = Screenshots st ++ [s]
      | EditData (Some e) =>
          e_userId e = user_id u /\
          ScreenshotEdits st' = ScreenshotEdits st ++ [e]
      | _ => False
      end.
Proof.
  intros a raw ctx env st resp st' Ha H.
  destruct Ha as [Ha | [Ha | [Ha | []]]]; subst a; unfold_actions;
    revert H; split_paths; intros H; inversion H; subst;
      eexists; (split; [reflexivity|]); simpl; auto.
Qed.

(** ** The edit log *)

Lemma step_appends_edits : forall r st,
  exists added, ScreenshotEdits (step r st) = ScreenshotEdits st ++ added.
Proof.
  intros r st. destruct (step_edits r st) as [E | (u & i & E & _)]; rewrite E.
  - exists []. rewrite app_nil_r. reflexivity.
  - eexists. reflexivity.
Qed.

(** C7. Whatever calls are made, in whatever store, the rows of
    [ScreenshotEdits] before the calls are still there afterwards, in the
    same positions and unchanged: a call can only append to the table. *)
Theorem edit_log_is_append_only :
  forall rs st,
    exists added, ScreenshotEdits (run rs st) = ScreenshotEdits st ++ added.
Proof.
  induction rs as [|r rs IH]; intros st; simpl.
  - exists []. rewrite app_nil_r. reflexivity.
  - destruct (IH (step r st)) as (later & E).
    destruct (step_appends_edits r st) as (now_ & E1).
    exists (now_ ++ later). rewrite E, E1, app_assoc. reflexivity.
Qed.


(** ** Updates *)

Lemma filter_none : forall {A} (f : A -> bool) (l : list A),
  (forall r, In r l -> f r = false) -> filter f l = [].
Proof.
  intros A f. induction l as [|a l IH]; intros H; simpl; [reflexivity|].
  rewrite (H a (or_introl eq_refl)). apply IH.
  intros r Hr. apply H. right. exact Hr.
Qed.

Lemma filter_by_key : forall {A} (key : A -> string) (l : list A) (x : A),
  NoDup (map key l) -> In x l ->
  filter (fun r => (key r =? key x)%string) l = [x].
Proof.
  intros A key. induction l as [|a l IH]; intros x Hnd Hin; [destruct Hin|].
  simpl in Hnd. inversion Hnd as [|? ? Hnotin Hnd']; subst. simpl.
  destruct Hin as [Hin | Hin].
  - subst a. rewrite String.eqb_refl. f_equal.
    apply filter_none.
    intros r Hr. apply String.eqb_neq. intros E.
    apply Hnotin. rewrite <- E. apply in_map. exact Hr.
  - destruct (key a =? key x)%string eqn:E.
    + apply String.eqb_eq in E. exfalso. apply Hnotin. rewrite E.
      apply in_map. exact Hin.
    + apply IH; assumption.
Qed.

Lemma patch_partially_updated : forall {A} (supplied previous : option A),
  partially_updated supplied previous (patch supplied previous).
Proof.
  intros A [v|] previous; reflexivity.
Qed.

Lemma updateProject_partial :
  forall st t raw ctx env resp st',
    reachable st t ->
    t <= new_Date env ->
    server UpdateProject raw ctx env st = (Ok resp, st') ->
    exists u i old new,
      requireUser ctx = Ok u /\
      updateProject_input raw = Some i /\
      In old (ScreenshotProjects st) /\
      p_id old = up_id i /\ p_userId old = user_id u /\
      resp = ProjectData (Some new) /\
      In new (ScreenshotProjects st') /\
      p_id new = p_id old /\
      p_userId new = p_userId old /\
      p_createdAt new = p_createdAt old /\
      p_updatedAt old <= p_updatedAt new /\
      partially_updated (up_title i) (p_title old) (p_title new) /\
      partially_updated (up_description i) (p_description old) (p_description new) /\
      partially_updated (up_sourceDevice i) (p_sourceDevice old) (p_sourceDevice new) /\
      partially_updated (up_sourceApp i) (p_sourceApp old) (p_sourceApp new) /\
      (forall p, In p (ScreenshotProjects st) -> p_id p <> up_id i ->
         In p (ScreenshotProjects st')) /\
      Screenshots st' = Screenshots st /\
      ScreenshotEdits st' = ScreenshotEdits st.
Proof.
  intros st t raw ctx env resp st' Hreach Hclock H.
  apply reachable_invariant in Hreach.
  destruct Hreach as [(Huniq & _) _ (Hstamp & _) _ _].
  unfold_actions.
  destruct (updateProject_input raw) as [i|]; [|discriminate].
  destruct (requireUser ctx) as [u|]; [|discriminate]. simpl in H.
  destruct (filter _ (ScreenshotProjects st)) as [|old rest] eqn:Hsel;
    simpl in H; [discriminate|].
  apply owned_project_found in Hsel. destruct Hsel as (Hin & Hid & Hown).
  rewrite <- Hid in H.
  rewrite (filter_by_key p_id _ old Huniq Hin) in H.
  simpl in H. inversion H; subst. clear H.
  exists u, i, old, (updateProject_set i (new_Date env) old).
  do 6 (split; [auto|]). simpl.
  split.
  { apply in_map_iff. exists old. rewrite String.eqb_refl. auto. }
  do 3 (split; [reflexivity|]).
  split.
  { rewrite Forall_forall in Hstamp. specialize (Hstamp old Hin). lia. }
  do 4 (split; [apply patch_partially_updated|]).
  split; [|auto].
  intros p Hp Hne. apply in_map_iff. exists p.
  rewrite <- Hid in Hne. apply String.eqb_neq in Hne. rewrite Hne. auto.
Qed.

Lemma updateScreenshot_partial :
  forall st t raw ctx env resp st',
    reachable st t ->
    t <= new_Date env ->
    server UpdateScreenshot raw ctx env st = (Ok resp, st') ->
    exists u i old new,
      requireUser ctx = Ok u /\
      updateScreenshot_input raw = Some i /\
      In old (Screenshots st) /\
      s_id old = us_id i /\ s_userId old = user_id u /\
      resp = ScreenshotData (Some new) /\
      In new (Screenshots st') /\
      s_id new = s_id old /\
      s_userId new = s_userId old /\
      s_originalImageUrl new = s_originalImageUrl old /\
      s_createdAt new = s_createdAt old /\
      s_updatedAt old <= s_updatedAt new /\
      partially_updated (us_projectId i) (s_projectId old) (s_projectId new) /\
      partially_updated (us_editedImageUrl i) (s_editedImageUrl old)
                        (s_editedImageUrl new) /\
      partially_updated (us_width i) (s_width old) (s_width new) /\
      partially_updated (us_height i) (s_height old) (s_height new) /\
      (forall s, In s (Screenshots st) -> s_id s <> us_id i ->
         In s (Screenshots st')) /\
      ScreenshotProjects st' = ScreenshotProjects st /\
      ScreenshotEdits st' = ScreenshotEdits st.
Proof.
  intros st t raw ctx env resp st' Hreach Hclock H.
  apply reachable_invariant in Hreach.
  destruct Hreach as [(_ & Huniq & _) _ (_ & Hstamp) _ _].
  unfold_actions.
  destruct (updateScreenshot_input raw) as [i|]; [|discriminate].
  destruct (requireUser ctx) as [u|]; [|discriminate]. simpl in H.
  destruct (filter _ (Screenshots st)) as [|old rest] eqn:Hsel;
    simpl in H; [discriminate|].
  apply owned_screenshot_found in Hsel. destruct Hsel as (Hin & Hid & Hown).
  assert (Hdone :
    forall st0,
      (Ok (ScreenshotData
             (hd_error (map (updateScreenshot_set i (new_Date env))
                            (filter (fun r => (s_id r =? us_id i)%string)
                                    (Screenshots st))))),
       with_screenshots
         (map (fun r => if (s_id r =? us_id i)%string
                        then updateScreenshot_set i (new_Date env) r else r)
              (Screenshots st)) st0) = (Ok resp, st') ->
      ScreenshotProjects st0 = ScreenshotProjects st ->
      ScreenshotEdits st0 = ScreenshotEdits st ->
      resp = ScreenshotData (Some (updateScreenshot_set i (new_Date env) old)) /\
      Screenshots st' =
        map (fun r => if (s_id r =? us_id i)%string
                      then updateScreenshot_set i (new_Date env) r else r)
            (Screenshots st) /\
      ScreenshotProjects st' = ScreenshotProjects st /\
      ScreenshotEdits st' = ScreenshotEdits st).
  { intros st0 E Hp He. inversion E; subst. simpl.
    rewrite <- Hid. rewrite (filter_by_key s_id _ old Huniq Hin). simpl. auto. }
  assert (Hrows :
      resp = ScreenshotData (Some (updateScreenshot_set i (new_Date env) old)) /\
      Screenshots st' =
        map (fun r => if (s_id r =? us_id i)%string
                      then updateScreenshot_set i (new_Date env) r else r)
            (Screenshots st) /\
      ScreenshotProjects st' = ScreenshotProjects st /\
      ScreenshotEdits st' = ScreenshotEdits st).
  { remember (us_projectId i) as o eqn:Ho in H. destruct o as [pid|]; simpl in H.
    - destruct (filter _ (ScreenshotProjects st)); simpl in H; [discriminate|].
      destruct (forallb _ _); simpl in H; [|discriminate].
      eapply Hdone; [exact H | reflexivity | reflexivity].
    - destruct (forallb _ _); simpl in H; [|discriminate].
      eapply Hdone; [exact H | reflexivity | reflexivity]. }
  clear H Hdone. destruct Hrows as (Hresp & Hshots & Hprojects & Hedits).
  exists u, i, old, (updateScreenshot_set i (new_Date env) old).
  do 6 (split; [auto|]). simpl.
  split.
  { rewrite Hshots. apply in_map_iff. exists old.
    rewrite Hid, String.eqb_refl. auto. }
  do 4 (split; [reflexivity|]).
  split.
  { rewrite Forall_forall in Hstamp. specialize (Hstamp old Hin). lia. }
  do 4 (split; [apply patch_partially_updated|]).
  split; [|auto].
  intros s Hs Hne. rewrite Hshots. apply in_map_iff. exists s.
  apply String.eqb_neq in Hne. rewrite Hne. auto.
Qed.

(** With the clock premise.  In a reachable store, when the clock has
    not gone back since it
    was last read, a successful [updateProject] or [updateScreenshot]
    rewrites the caller's row with the given id: [updatedAt] does not
    decrease, each updatable column holds the supplied value or, when the
    field is not supplied, its previous value, and [id], [userId],
    [createdAt] (and [originalImageUrl]) are unchanged; the other rows
    and tables are as before. *)
Theorem update_is_partial_and_keeps_owner :
  forall st t raw ctx env resp st',
    reachable st t ->
    t <= new_Date env ->
    (server UpdateProject raw ctx env st = (Ok resp, st') ->
     exists u i old new,
       requireUser ctx = Ok u /\
       updateProject_input raw = Some i /\
       In old (ScreenshotProjects st) /\
       p_id old = up_id i /\ p_userId old = user_id u /\
       resp = ProjectData (Some new) /\
       In new (ScreenshotProjects st') /\
       p_id new = p_id old /\
       p_userId new = p_userId old /\
       p_createdAt new = p_createdAt old /\
       p_updatedAt old <= p_updatedAt new /\
       partially_updated (up_title i) (p_title old) (p_title new) /\
       partially_updated (up_description i) (p_description old) (p_description new) /\
       partially_updated (up_sourceDevice i) (p_sourceDevice old) (p_sourceDevice new) /\
       partially_updated (up_sourceApp i) (p_sourceApp old) (p_sourceApp new) /\
       (forall p, In p (ScreenshotProjects st) -> p_id p <> up_id i ->
          In p (ScreenshotProjects st')) /\
       Screenshots st' = Screenshots st /\
       ScreenshotEdits st' = ScreenshotEdits st) /\
    (server UpdateScreenshot raw ctx env st = (Ok resp, st') ->
     exists u i old new,
       requireUser ctx = Ok u /\
       updateScreenshot_input raw = Some i /\
       In old (Screenshots st) /\
       s_id old = us_id i /\ s_userId old = user_id u /\
       resp = ScreenshotData (Some new) /\
       In new (Screenshots st') /\
       s_id new = s_id old /\
       s_userId new = s_userId old /\
       s_originalImageUrl new = s_originalImageUrl old /\
       s_createdAt new = s_createdAt old /\
       s_updatedAt old <= s_updatedAt new /\
       partially_updated (us_projectId i) (s_projectId old) (s_projectId new) /\
       partially_updated (us_editedImageUrl i) (s_editedImageUrl old)
                         (s_editedImageUrl new) /\
       partially_updated (us_width i) (s_width old) (s_width new) /\
       partially_updated (us_height i) (s_height old) (s_height new) /\
       (forall s, In s (Screenshots st) -> s_id s <> us_id i ->
          In s (Screenshots st')) /\
       ScreenshotProjects st' = ScreenshotProjects st /\
       ScreenshotEdits st' = ScreenshotEdits st).
Proof.
  intros st t raw ctx env resp st' Hreach Hclock. split.
  - apply (updateProject_partial st t); assumption.
  - apply (updateScreenshot_partial st t); assumption.
Qed.

(** ** Validation and authentication come first *)

(** C6. An [updateProject] call whose input object supplies none of
    [title], [description], [sourceDevice], [sourceApp], and an
    [updateScreenshot] call whose input supplies none of [projectId],
    [editedImageUrl], [width], [height], fail with the validation error
    whoever calls, and leave the store as it was: no row is changed and no
    statement is issued. *)
Theorem update_without_fields_fails_validation :
  forall a fields ctx env st,
    (a = UpdateProject /\
     prop "title" fields = JUndefined /\
     prop "description" fields = JUndefined /\
     prop "sourceDevice" fields = JUndefined /\
     prop "sourceApp" fields = JUndefined) \/
    (a = UpdateScreenshot /\
     prop "projectId" fields = JUndefined /\
     prop "editedImageUrl" fields = JUndefined /\
     prop "width" fields = JUndefined /\
     prop "height" fields = JUndefined) ->
    server a (JObject fields) ctx env st = (Err ValidationError, st).
Proof.
  intros a fields ctx env st [(Ha & H1 & H2 & H3 & H4) | (Ha & H1 & H2 & H3 & H4)];
    subst a; unfold server, defineAction.
  - unfold updateProject_input, z_refine, z_object.
    rewrite H1, H2, H3, H4.
    destruct (z_min 1 z_string (prop "id" fields)); reflexivity.
  - unfold updateScreenshot_input, z_refine, z_object.
    rewrite H1, H2, H3, H4.
    destruct (z_min 1 z_string (prop "id" fields)); reflexivity.
Qed.

Lemma server_unauthenticated : forall a raw ctx env st e,
  requireUser ctx = Err e ->
  server a raw ctx env st =
    (Err (if accepts a raw then e else ValidationError), st).
Proof.
  intros a raw ctx env st e He.
  destruct a; unfold server, accepts, defineAction;
    match goal with
    | |- context [defined ?p] => destruct p; simpl; [|reflexivity]
    end;
    unfold createProject, updateProject, listProjects, createScreenshot,
      updateScreenshot, listScreenshots, createScreenshotEdit,
      listScreenshotEdits, bind, lift; rewrite He; reflexivity.
Qed.

(** C9, as the code has it.  With no authenticated user, a call whose
    input the schema accepts fails with [UNAUTHORIZED]; a call whose input
    the schema rejects fails with the validation error, because the input
    is parsed before the handler, and so before [requireUser], runs.  In
    both cases the store is untouched: no ownership check, no statement. *)
Theorem unauthenticated_call_is_refused :
  forall a raw ctx env st,
    authenticated ctx = false ->
    server a raw ctx env st =
      (Err (if accepts a raw
            then ActionError UNAUTHORIZED
                   "You must be signed in to perform this action."
            else ValidationError),
       st).
Proof.
  intros a raw ctx env st Hanon.
  apply server_unauthenticated.
  unfold authenticated in Hanon. unfold requireUser in *.
  destruct (locals ctx) as [l|]; [|reflexivity].
  destruct (user l); [discriminate | reflexivity].
Qed.

(** ** [listScreenshots] *)

(** X22. [listScreenshots] with a non-empty [projectId].  For an
    authenticated caller and an accepted input: a non-empty [projectId]
    that is not the id of a project of the caller makes the call fail
    with [NOT_FOUND]; a successful call returns, in table order, exactly
    the caller's screenshots, restricted to the given [projectId] when
    that is non-empty, with [total] their number; and a non-empty
    [projectId] of a successful call is a project of the caller. *)
Theorem listScreenshots_checks_and_filters :
  forall raw ctx env st u i,
    requireUser ctx = Ok u ->
    listScreenshots_input raw = Some i ->
    (forall pid,
       ls_projectId i = Some pid -> pid <> "" ->
       (forall p, In p (ScreenshotProjects st) ->
          p_id p = pid -> p_userId p <> user_id u) ->
       fst (server ListScreenshots raw ctx env st) =
         Err (ActionError NOT_FOUND "Project not found.")) /\
    (forall resp,
       fst (server ListScreenshots raw ctx env st) = Ok resp ->
       (forall pid, ls_projectId i = Some pid -> pid <> "" ->
          exists p, In p (ScreenshotProjects st) /\
                    p_id p = pid /\ p_userId p = user_id u) /\
       exists keep,
         resp = ScreenshotList (filter keep (Screenshots st))
                               (length (filter keep (Screenshots st))) /\
         forall s, keep s = true <->
           s_userId s = user_id u /\
           (forall pid, ls_projectId i = Some pid -> pid <> "" ->
              s_projectId s = Some pid)).
Proof.
  intros raw ctx env st u i Hu Hi. split.
  - intros pid Hpid Hne Hforeign.
    unfold_actions. rewrite Hi, Hu. simpl. rewrite Hpid. simpl.
    apply String.eqb_neq in Hne. rewrite Hne. simpl.
    rewrite filter_none; [reflexivity|].
    intros p Hp. apply andb_false_iff.
    destruct (p_id p =? pid)%string eqn:E; [right | left; reflexivity].
    apply String.eqb_eq in E. apply String.eqb_neq. auto.
  - intros resp H. split.
    + intros pid Hpid Hne.
      unfold_actions. rewrite Hi, Hu in H. simpl in H. rewrite Hpid in H.
      simpl in H. apply String.eqb_neq in Hne. rewrite Hne in H. simpl in H.
      destruct (filter _ (ScreenshotProjects st)) as [|p rest] eqn:Hsel;
        simpl in H; [discriminate|].
      apply owned_project_found in Hsel. eauto.
    + destruct (listScreenshots_rows _ _ _ _ _ _ Hu H) as (i' & keep & Hi' & E & Hkeep).
      rewrite Hi in Hi'. inversion Hi'; subst i'.
      exists keep. auto.
Qed.

(** ** The ownership resolvers do not tell unknown from foreign *)

Lemma no_owned_project_select : forall id uid st,
  no_owned_project id uid st ->
  filter (fun r => (p_id r =? id)%string && (p_userId r =? uid)%string)
         (ScreenshotProjects st) = [].
Proof.
  intros id uid st H. apply filter_none. intros p Hp.
  apply andb_false_iff.
  destruct (p_id p =? id)%string eqn:E; [right | left; reflexivity].
  apply String.eqb_eq in E. apply String.eqb_neq. apply (H p Hp E).
Qed.

Lemma no_owned_screenshot_select : forall id uid st,
  no_owned_screenshot id uid st ->
  filter (fun r => (s_id r =? id)%string && (s_userId r =? uid)%string)
         (Screenshots st) = [].
Proof.
  intros id uid st H. apply filter_none. intros s Hs.
  apply andb_false_iff.
  destruct (s_id s =? id)%string eqn:E; [right | left; reflexivity].
  apply String.eqb_eq in E. apply String.eqb_neq. apply (H s Hs E).
Qed.









(** ** Screenshots and their project *)

(** What the checks of [createScreenshot] and [updateScreenshot] do
    establish: in a reachable store, a screenshot whose [projectId] is a
    non-empty string points at a project of the screenshot's own user. *)
Lemma screenshot_project_is_owned :
  forall st t s pid,
    reachable st t ->
    In s (Screenshots st) -> s_projectId s = Some pid -> pid <> "" ->
    exists p, In p (ScreenshotProjects st) /\
              p_id p = pid /\ p_userId p = s_userId s.
Proof.
  intros st t s pid Hreach Hs Hpid Hne.
  apply reachable_invariant in Hreach.
  exact (inv_screenshots _ _ Hreach s pid Hs Hpid Hne).
Qed.

(** ** Further properties of the action layer *)

(** *** The resolvers *)

(** X1. [getOwnedProject] succeeds exactly when the table holds a
    project with the given id and the given user.  [getOwnedScreenshot],
    when it succeeds, has found a screenshot with the given id and user,
    and it succeeds whenever there is one and the rows with that id and
    user hold safe integers as [width] and [height].  The row returned
    is a row of the table, and neither resolver changes a row. *)
Theorem resolvers_find_the_owned_rows :
  forall id uid st,
    (forall p, fst (getOwnedProject id uid st) = Ok p ->
       In p (ScreenshotProjects st) /\ p_id p = id /\ p_userId p = uid) /\
    ((exists p, In p (ScreenshotProjects st) /\ p_id p = id /\ p_userId p = uid) ->
     exists p, fst (getOwnedProject id uid st) = Ok p) /\
    same_rows st (snd (getOwnedProject id uid st)) /\
    (forall s, fst (getOwnedScreenshot id uid st) = Ok s ->
       In s (Screenshots st) /\ s_id s = id /\ s_userId s = uid) /\
    ((exists s, In s (Screenshots st) /\ s_id s = id /\ s_userId s = uid) ->
     (forall s, In s (Screenshots st) -> s_id s = id -> s_userId s = uid ->
        readable_screenshot s = true) ->
     exists s, fst (getOwnedScreenshot id uid st) = Ok s) /\
    same_rows st (snd (getOwnedScreenshot id uid st)).
Proof.
  intros id uid st.
  split; [|split; [|split; [|split; [|split]]]].
  - intros p H. unfold getOwnedProject, bind, select_projects, ret, throw in H.
    destruct (filter _ (ScreenshotProjects st)) as [|q rest] eqn:Hsel;
      simpl in H; [discriminate|].
    inversion H; subst q. exact (owned_project_found _ _ _ _ _ Hsel).
  - intros (p & Hin & Hid & Hown).
    unfold getOwnedProject, bind, select_projects, ret, throw.
    destruct (filter _ (ScreenshotProjects st)) as [|q rest] eqn:Hsel.
    + exfalso. assert (In p []) as [].
      rewrite <- Hsel. apply filter_In. split; [exact Hin|].
      apply andb_true_iff. split; apply String.eqb_eq; assumption.
    + exists q. reflexivity.
  - unfold getOwnedProject, bind, select_projects, ret, throw, same_rows.
    destruct (filter _ (ScreenshotProjects st)); simpl; auto.
  - intros s H. unfold getOwnedScreenshot, bind, select_screenshots, ret, throw in H.
    destruct (filter _ (Screenshots st)) as [|q rest] eqn:Hsel;
      simpl in H; [discriminate|].
    inversion H; subst q. exact (owned_screenshot_found _ _ _ _ _ Hsel).
  - intros (s & Hin & Hid & Hown) _.
    unfold getOwnedScreenshot, bind, select_screenshots, ret, throw.
    destruct (filter _ (Screenshots st)) as [|q rest] eqn:Hsel.
    + exfalso. assert (In s []) as [].
      rewrite <- Hsel. apply filter_In. split; [exact Hin|].
      apply andb_true_iff. split; apply String.eqb_eq; assumption.
    + exists q. reflexivity.
  - unfold getOwnedScreenshot, bind, select_screenshots, ret, throw, same_rows.
    destruct (filter _ (Screenshots st)); simpl; auto.
Qed.

(** *** What a call leaves alone *)

(** X2. The three listings change no row of any table, whatever their
    input, caller and outcome, and send the store nothing but [select]
    statements. *)
Theorem listings_only_read :
  forall a raw ctx env st,
    In a [ListProjects; ListScreenshots; ListScreenshotEdits] ->
    same_rows st (snd (server a raw ctx env st)) /\
    exists qs,
      issued (snd (server a raw ctx env st)) = issued st ++ qs /\
      forallb is_select qs = true.
Proof.
  intros a raw ctx env st Ha. unfold same_rows.
  destruct Ha as [Ha | [Ha | [Ha | []]]]; subst a; unfold_actions;
    split_paths;
    (split; [auto|]); simpl;
    first [ exists []; split; [rewrite app_nil_r; reflexivity | reflexivity]
          | eexists; split;
            [ rewrite <- ?app_assoc; reflexivity | reflexivity ] ].
Qed.

(** X3. A call whose input holds only safe integers as [width] and
    [height], and which fails, with whatever error, has changed no row
    of any table: each handler writes once, as its last statement, and a
    write that the store rejects stores nothing. *)
Theorem failed_call_with_safe_numbers_changes_no_row :
  forall a raw ctx env st e,
    safe_numbers raw = true ->
    fst (server a raw ctx env st) = Err e ->
    same_rows st (snd (server a raw ctx env st)).
Proof.
  intros a raw ctx env st e _. unfold same_rows.
  destruct a; unfold_actions; split_paths; intros H;
    try discriminate; simpl; auto.
Qed.

(** *** One call, table by table, with the rows it writes *)

Lemma step_projects_full : forall r st,
  ScreenshotProjects (step r st) = ScreenshotProjects st \/
  (exists u i,
     ScreenshotProjects (step r st) =
       ScreenshotProjects st ++
       [mkProject (randomUUID (env r)) (user_id u)
                  (cp_title i) (cp_description i)
                  (cp_sourceDevice i) (cp_sourceApp i)
                  (new_Date (env r)) (new_Date (env r))] /\
     requireUser (context r) = Ok u /\
     project_exists (randomUUID (env r)) st = false) \/
  (exists u i,
     ScreenshotProjects (step r st) =
       map (fun p => if (p_id p =? up_id i)%string
                     then updateProject_set i (new_Date (env r)) p else p)
           (ScreenshotProjects st) /\
     requireUser (context r) = Ok u /\
     exists p, In p (ScreenshotProjects st) /\ p_id p = up_id i /\
               p_userId p = user_id u).
Proof.
  intros [a raw ctx e] st. unfold_actions. simpl.
  destruct a; split_paths; try discriminate; auto; found.
  - right. left. eexists _, _. split; [reflexivity|]. auto.
  - right. right. eexists _, _. split; [reflexivity|]. split; [reflexivity|]. eauto.
Qed.

Lemma step_screenshots_full : forall r st,
  Screenshots (step r st) = Screenshots st \/
  (exists u i,
     Screenshots (step r st) =
       Screenshots st ++
       [mkScreenshot (randomUUID (env r)) (cs_projectId i) (user_id u)
                     (cs_originalImageUrl i) (cs_editedImageUrl i)
                     (cs_width i) (cs_height i)
                     (new_Date (env r)) (new_Date (env r))] /\
     requireUser (context r) = Ok u /\
     screenshot_exists (randomUUID (env r)) st = false) \/
  (exists u i,
     Screenshots (step r st) =
       map (fun s => if (s_id s =? us_id i)%string
                     then updateScreenshot_set i (new_Date (env r)) s else s)
           (Screenshots st) /\
     requireUser (context r) = Ok u /\
     exists s, In s (Screenshots st) /\ s_id s = us_id i /\
               s_userId s = user_id u).
Proof.
  intros [a raw ctx e] st. unfold_actions. simpl.
  destruct a; split_paths; try discriminate; auto; found.
  all: try match goal with
           | H : cs_projectId _ = Some _ |- _ => rewrite <- H
           end.
  all: try (right; left; eexists _, _; split; [reflexivity|]; auto; fail).
  all: right; right; eexists _, _; split; [reflexivity|]; split; [reflexivity|]; eauto.
Qed.

(** *** Rows stay *)

Lemma project_row_stays : forall r st p,
  In p (ScreenshotProjects st) ->
  exists p', In p' (ScreenshotProjects (step r st)) /\
             p_id p' = p_id p /\ p_userId p' = p_userId p /\
             p_createdAt p' = p_createdAt p.
Proof.
  intros r st p Hin.
  destruct (step_projects_full r st) as [E | [(u & i & E & _) | (u & i & E & _)]];
    rewrite E.
  - exists p. auto.
  - exists p. split; [apply in_or_app; left; exact Hin | auto].
  - exists (if (p_id p =? up_id i)%string
            then updateProject_set i (new_Date (env r)) p else p).
    split.
    + apply (in_map (fun p => if (p_id p =? up_id i)%string
                              then updateProject_set i (new_Date (env r)) p
                              else p)). exact Hin.
    + destruct (p_id p =? up_id i)%string; auto.
Qed.

Lemma screenshot_row_stays : forall r st s,
  In s (Screenshots st) ->
  exists s', In s' (Screenshots (step r st)) /\
             s_id s' = s_id s /\ s_userId s' = s_userId s /\
             s_originalImageUrl s' = s_originalImageUrl s /\
             s_createdAt s' = s_createdAt s /\
             (s_projectId s <> None -> s_projectId s' <> None).
Proof.
  intros r st s Hin.
  destruct (step_screenshots_full r st)
    as [E | [(u & i & E & _) | (u & i & E & _)]]; rewrite E.
  - exists s. repeat split; auto.
  - exists s. split; [apply in_or_app; left; exact Hin | repeat split; auto].
  - exists (if (s_id s =? us_id i)%string
            then updateScreenshot_set i (new_Date (env r)) s else s).
    split.
    + apply (in_map (fun s => if (s_id s =? us_id i)%string
                              then updateScreenshot_set i (new_Date (env r)) s
                              else s)). exact Hin.
    + destruct (s_id s =? us_id i)%string; repeat split; auto.
      simpl. destruct (us_projectId i); simpl; [discriminate | auto].
Qed.

(** X4. No sequence of calls deletes a project or a screenshot or moves
    it to another user: a row of the table before the calls is found
    afterwards with the same [id], [userId] and [createdAt], and for a
    screenshot the same [originalImageUrl]. *)
Theorem rows_keep_their_identity :
  forall rs st,
    (forall p, In p (ScreenshotProjects st) ->
       exists p', In p' (ScreenshotProjects (run rs st)) /\
                  p_id p' = p_id p /\ p_userId p' = p_userId p /\
                  p_createdAt p' = p_createdAt p) /\
    (forall s, In s (Screenshots st) ->
       exists s', In s' (Screenshots (run rs st)) /\
                  s_id s' = s_id s /\ s_userId s' = s_userId s /\
                  s_originalImageUrl s' = s_originalImageUrl s /\
                  s_createdAt s' = s_createdAt s).
Proof.
  induction rs as [|r rs IH]; intros st; simpl.
  - split; intros x Hx; exists x; auto.
  - destruct (IH (step r st)) as [IHp IHs]. split.
    + intros p Hp.
      destruct (project_row_stays r st p Hp) as (p1 & H1 & A1 & B1 & C1).
      destruct (IHp p1 H1) as (p2 & H2 & A2 & B2 & C2).
      exists p2. repeat split; congruence.
    + intros s Hs.
      destruct (screenshot_row_stays r st s Hs) as (s1 & H1 & A1 & B1 & C1 & D1 & _).
      destruct (IHs s1 H1) as (s2 & H2 & A2 & B2 & C2 & D2).
      exists s2. repeat split; congruence.
Qed.

(** X5. A screenshot that has a [projectId] never loses it: no input of
    [updateScreenshot] passes the schema with a null [projectId], so a
    reassignment can only replace the project by another. *)
Theorem projectId_is_never_cleared :
  forall rs st s,
    In s (Screenshots st) ->
    s_projectId s <> None ->
    exists s', In s' (Screenshots (run rs st)) /\
               s_id s' = s_id s /\ s_projectId s' <> None.
Proof.
  induction rs as [|r rs IH]; intros st s Hs Hset; simpl.
  - exists s. auto.
  - destruct (screenshot_row_stays r st s Hs) as (s1 & H1 & A1 & _ & _ & _ & P1).
    destruct (IH (step r st) s1 H1 (P1 Hset)) as (s2 & H2 & A2 & P2).
    exists s2. repeat split; auto. congruence.
Qed.

(** *** Timestamps *)

(** X6. In every reachable store the timestamps are in order: for a
    project and a screenshot [createdAt <= updatedAt], and no timestamp
    of any row is later than the latest reading of the clock. *)
Theorem timestamps_are_in_order :
  forall st t, reachable st t -> well_stamped t st.
Proof.
  induction 1 as [t | st t r Hreach (IHp & IHs & IHe) Hclock Huuid].
  - repeat split; constructor.
  - unfold well_stamped. split; [|split].
    + assert (Hold : Forall (fun p => p_createdAt p <= p_updatedAt p <= new_Date (env r))
                            (ScreenshotProjects st))
        by (eapply Forall_impl; [|exact IHp]; simpl; intros; lia).
      destruct (step_projects_full r st)
        as [E | [(u & i & E & _) | (u & i & E & _)]]; rewrite E.
      * exact Hold.
      * apply Forall_app. split; [exact Hold|].
        constructor; [simpl; lia | constructor].
      * apply Forall_map. rewrite Forall_forall in *.
        intros p Hp. specialize (IHp p Hp). simpl in IHp.
        destruct (p_id p =? up_id i)%string; simpl; lia.
    + assert (Hold : Forall (fun s => s_createdAt s <= s_updatedAt s <= new_Date (env r))
                            (Screenshots st))
        by (eapply Forall_impl; [|exact IHs]; simpl; intros; lia).
      destruct (step_screenshots_full r st)
        as [E | [(u & i & E & _) | (u & i & E & _)]]; rewrite E.
      * exact Hold.
      * apply Forall_app. split; [exact Hold|].
        constructor; [simpl; lia | constructor].
      * apply Forall_map. rewrite Forall_forall in *.
        intros s Hs. specialize (IHs s Hs). simpl in IHs.
        destruct (s_id s =? us_id i)%string; simpl; lia.
    + assert (Hold : Forall (fun e => e_createdAt e <= new_Date (env r))
                            (ScreenshotEdits st))
        by (eapply Forall_impl; [|exact IHe]; simpl; intros; lia).
      destruct (step_edits r st) as [E | (u & i & E & _)]; rewrite E.
      * exact Hold.
      * apply Forall_app. split; [exact Hold|].
        constructor; [simpl; lia | constructor].
Qed.

(** *** Primary keys *)


(** *** Writes stay within the caller's rows *)




(** *** Creating, then listing *)

(** X9. After a successful [createProject], listing the caller's
    projects returns the caller's earlier projects followed by the row
    the create returned, with [total] one more. *)
Theorem created_project_is_listed_next :
  forall raw ctx env st p st',
    server CreateProject raw ctx env st = (Ok (ProjectData (Some p)), st') ->
    exists u,
      requireUser ctx = Ok u /\
      forall raw' env',
        accepts ListProjects raw' = true ->
        fst (server ListProjects raw' ctx env' st') =
          Ok (ProjectList (projects_of (user_id u) st ++ [p])
                          (S (length (projects_of (user_id u) st)))).
Proof.
  intros raw ctx env st p st' H. unfold_actions.
  destruct (createProject_input raw) as [i|]; [|discriminate].
  destruct (requireUser ctx) as [u|] eqn:Hu; [|discriminate]. simpl in H.
  destruct (project_exists (randomUUID env) st); simpl in H; [discriminate|].
  inversion H; subst. clear H.
  exists u. split; [reflexivity|].
  intros raw' env' Hacc. simpl in Hacc.
  destruct (listProjects_input raw'); [|discriminate]. simpl.
  unfold projects_of. rewrite filter_app. simpl. rewrite String.eqb_refl.
  rewrite length_app. simpl. rewrite Nat.add_1_r. reflexivity.
Qed.

Lemma z_min_1_accepts : forall v s,
  z_min 1 z_string v = Some s -> v = JString s /\ s <> "".
Proof.
  intros v s H. unfold z_min, z_string in H.
  destruct v; try discriminate.
  destruct s0; simpl in H; [discriminate|].
  inversion H. split; [reflexivity | discriminate].
Qed.

Lemma z_min_1_of_nonempty : forall s,
  s <> "" -> z_min 1 z_string (JString s) = Some s.
Proof.
  intros [|c s] H; [contradiction | reflexivity].
Qed.

Lemma createScreenshotEdit_input_id : forall raw i,
  createScreenshotEdit_input raw = Some i -> ce_screenshotId i <> "".
Proof.
  intros raw i H. unfold createScreenshotEdit_input, z_object in H.
  destruct raw; try discriminate.
  destruct (z_min 1 z_string (prop "screenshotId" fields)) as [sid|] eqn:Hsid;
    simpl in H; [|discriminate].
  apply z_min_1_accepts in Hsid. destruct Hsid as [_ Hne].
  destruct (z_optional z_string (prop "editType" fields)); simpl in H;
    [|discriminate].
  destruct (z_optional z_string (prop "operationsJson" fields)); simpl in H;
    [|discriminate].
  destruct (z_optional z_string (prop "resultImageUrl" fields)); simpl in H;
    [|discriminate].
  inversion H. exact Hne.
Qed.

(** X10. A successful [createScreenshotEdit] returns the edit it
    appended.  Asking right after for the edits of that screenshot, as
    the same caller, succeeds and returns the edits the table held for
    that screenshot followed by the new one, with [total] one more. *)
Theorem created_edit_is_listed :
  forall raw ctx env st e st',
    server CreateScreenshotEdit raw ctx env st = (Ok (EditData (Some e)), st') ->
    ScreenshotEdits st' = ScreenshotEdits st ++ [e] /\
    forall env',
      fst (server ListScreenshotEdits
             (JObject [("screenshotId", JString (e_screenshotId e))])
             ctx env' st') =
        Ok (EditList
              (filter (fun r => (e_screenshotId r =? e_screenshotId e)%string)
                      (ScreenshotEdits st) ++ [e])
              (S (length
                    (filter (fun r => (e_screenshotId r =? e_screenshotId e)%string)
                            (ScreenshotEdits st))))).
Proof.
  intros raw ctx env st e st' H. unfold_actions.
  destruct (createScreenshotEdit_input raw) as [i|] eqn:Hi; [|discriminate].
  pose proof (createScreenshotEdit_input_id _ _ Hi) as Hne.
  destruct (requireUser ctx) as [u|] eqn:Hu; [|discriminate]. simpl in H.
  destruct (filter _ (Screenshots st)) as [|s rest] eqn:Hsel; simpl in H;
    [discriminate|].
  destruct (edit_exists (randomUUID env) _); simpl in H; [discriminate|].
  destruct (negb _); simpl in H; [discriminate|].
  inversion H; subst. clear H. simpl.
  split; [reflexivity|].
  intros env'.
  unfold listScreenshotEdits_input, z_object. simpl.
  rewrite (z_min_1_of_nonempty _ Hne). simpl.
  rewrite Hsel. simpl.
  rewrite filter_app. simpl. rewrite String.eqb_refl.
  rewrite length_app. simpl. rewrite Nat.add_1_r. reflexivity.
Qed.

(** X11. [listProjects] never fails for an authenticated caller whose
    input is undefined or an object: it returns, in table order, exactly
    the projects of the caller, every one of them, with [total] their
    number. *)
Theorem listProjects_returns_all_own_projects :
  forall raw ctx env st u,
    requireUser ctx = Ok u ->
    accepts ListProjects raw = true ->
    fst (server ListProjects raw ctx env st) =
      Ok (ProjectList (projects_of (user_id u) st)
                      (length (projects_of (user_id u) st))) /\
    (forall p, In p (projects_of (user_id u) st) <->
       In p (ScreenshotProjects st) /\ p_userId p = user_id u).
Proof.
  intros raw ctx env st u Hu Hacc. split.
  - unfold_actions. simpl in Hacc.
    destruct (listProjects_input raw); [|discriminate].
    rewrite Hu. reflexivity.
  - intros p. unfold projects_of. rewrite filter_In, String.eqb_eq. tauto.
Qed.

(** *** Inputs the schemas reject *)

Lemma z_min_1_rejects : forall v,
  nonempty_string v = false -> z_min 1 z_string v = None.
Proof.
  intros v H. unfold z_min, z_string. destruct v; try reflexivity.
  simpl in H. apply negb_false_iff in H. apply String.eqb_eq in H.
  subst s. reflexivity.
Qed.

(** X12. The five actions whose schema declares a text with [.min(1)]
    ([id] of the two updates, [originalImageUrl] of [createScreenshot],
    [screenshotId] of [createScreenshotEdit] and [listScreenshotEdits])
    fail with the validation error when that key is missing, is not a
    string or is the empty string, for every caller, and the store is
    not touched. *)
Theorem missing_required_text_fails_validation :
  forall a key fields ctx env st,
    required_key a = Some key ->
    nonempty_string (prop key fields) = false ->
    server a (JObject fields) ctx env st = (Err ValidationError, st).
Proof.
  intros a key fields ctx env st Hkey Hbad.
  apply z_min_1_rejects in Hbad.
  destruct a; simpl in Hkey; inversion Hkey; subst key;
    unfold server, defineAction, updateProject_input, createScreenshot_input,
      updateScreenshot_input, createScreenshotEdit_input,
      listScreenshotEdits_input, z_refine, z_object;
    rewrite Hbad; simpl;
    try reflexivity.
  destruct (z_optional z_string (prop "projectId" fields)); reflexivity.
Qed.

(** X13. Every action but [listProjects] fails with the validation
    error, without touching the store, when its input is not an object
    (undefined, null, a boolean, a number, a string, an array);
    [listProjects] accepts an undefined input and rejects the others. *)
Theorem non_object_input_fails_validation :
  forall a raw ctx env st,
    is_object raw = false ->
    a <> ListProjects \/ raw <> JUndefined ->
    server a raw ctx env st = (Err ValidationError, st).
Proof.
  intros a raw ctx env st Hobj Hcase.
  destruct a; destruct raw; try discriminate Hobj;
    try reflexivity;
    destruct Hcase as [Hc | Hc]; congruence.
Qed.

Lemma prop_skips_other_key : forall key k v fields,
  k <> key -> prop key ((k, v) :: fields) = prop key fields.
Proof.
  intros key k v fields H. simpl.
  apply String.eqb_neq in H. rewrite H. reflexivity.
Qed.

(** X14. A key the schema of an action does not declare is dropped when
    the input is parsed: adding it to the input object, with any value,
    changes neither the result nor the resulting store.  In particular a
    [userId], [id], [createdAt] or [updatedAt] sent to a create action
    has no effect. *)
Theorem undeclared_key_is_ignored :
  forall a k v fields ctx env st,
    ~ In k (declared_keys a) ->
    server a (JObject ((k, v) :: fields)) ctx env st =
    server a (JObject fields) ctx env st.
Proof.
  intros a k v fields ctx env st Hk.
  assert (Hskip : forall key, In key (declared_keys a) ->
                    prop key ((k, v) :: fields) = prop key fields).
  { intros key Hin. apply prop_skips_other_key. intros E. subst. exact (Hk Hin). }
  destruct a; unfold server, defineAction, createProject_input,
      updateProject_input, listProjects_input, createScreenshot_input,
      updateScreenshot_input, listScreenshots_input, createScreenshotEdit_input,
      listScreenshotEdits_input, z_refine, z_object;
    repeat match goal with
    | |- context [prop ?key ((k, v) :: fields)] =>
        rewrite (Hskip key) by (simpl; tauto)
    end; reflexivity.
Qed.

(** *** Statements sent to the store *)

Ltac statements_of reads writes :=
  solve [ exists reads, writes;
          split; [simpl; rewrite <- ?app_assoc, ?app_nil_r; reflexivity|];
          split; [reflexivity|];
          split; [simpl; lia|];
          first [ left; reflexivity
                | right; eexists; split; reflexivity ] ].

(** X15. Whatever the action, input and caller, one call sends the
    store at most two [select] statements followed by at most one write
    ([insert] or [update]); the write, when there is one, is the last
    statement of the call. *)
Theorem call_reads_then_writes_once :
  forall a raw ctx env st,
    exists reads writes,
      issued (snd (server a raw ctx env st)) = issued st ++ reads ++ writes /\
      forallb is_select reads = true /\
      (length reads <= 2)%nat /\
      (writes = [] \/ exists q, writes = [q] /\ is_select q = false).
Proof.
  intros a raw ctx env st.
  destruct a; unfold_actions; split_paths;
    first
      [ statements_of (@nil Query) (@nil Query)
      | match goal with
        | |- context [log ?w (log ?r2 (log ?r1 _))] => statements_of [r1; r2] [w]
        end
      | match goal with
        | |- context [log ?r2 (log ?r1 _)] =>
            first [ statements_of [r1; r2] (@nil Query)
                  | statements_of [r1] [r2] ]
        end
      | match goal with
        | |- context [log ?q _] =>
            first [ statements_of [q] (@nil Query)
                  | statements_of (@nil Query) [q] ]
        end ].
Qed.

(** *** [updateProject], outcome and repetition *)

Lemma owned_project_selected : forall id uid st,
  (exists p, In p (ScreenshotProjects st) /\ p_id p = id /\ p_userId p = uid) ->
  exists p rest,
    filter (fun r => (p_id r =? id)%string && (p_userId r =? uid)%string)
           (ScreenshotProjects st) = p :: rest.
Proof.
  intros id uid st (p & Hin & Hid & Hown).
  destruct (filter _ (ScreenshotProjects st)) as [|q rest] eqn:Hsel; [|eauto].
  exfalso. assert (In p []) as [].
  rewrite <- Hsel. apply filter_In. split; [exact Hin|].
  apply andb_true_iff. split; apply String.eqb_eq; assumption.
Qed.

Lemma updateProject_on_own_project : forall i ctx env st u,
  requireUser ctx = Ok u ->
  (exists p, In p (ScreenshotProjects st) /\
             p_id p = up_id i /\ p_userId p = user_id u) ->
  updateProject i ctx env st =
    (Ok (ProjectData
           (hd_error (map (updateProject_set i (new_Date env))
                          (filter (fun r => (p_id r =? up_id i)%string)
                                  (ScreenshotProjects st))))),
     with_projects
       (map (fun r => if (p_id r =? up_id i)%string
                      then updateProject_set i (new_Date env) r else r)
            (ScreenshotProjects st))
       (log (Update TScreenshotProjects) (log (Select TScreenshotProjects) st))).
Proof.
  intros i ctx env st u Hu Hown.
  destruct (owned_project_selected _ _ _ Hown) as (p & rest & Hsel).
  unfold_actions. rewrite Hu. simpl. rewrite Hsel. reflexivity.
Qed.

(** X16. For an authenticated caller and an accepted input,
    [updateProject] succeeds when the caller has a project with the
    given id and fails with [NOT_FOUND] when not; it has no other
    outcome. *)
Theorem updateProject_succeeds_exactly_on_own_project :
  forall raw ctx env st u i,
    requireUser ctx = Ok u ->
    updateProject_input raw = Some i ->
    ((exists p, In p (ScreenshotProjects st) /\
                p_id p = up_id i /\ p_userId p = user_id u) ->
     exists resp, fst (server UpdateProject raw ctx env st) = Ok resp) /\
    (~ (exists p, In p (ScreenshotProjects st) /\
                  p_id p = up_id i /\ p_userId p = user_id u) ->
     fst (server UpdateProject raw ctx env st) = project_not_found).
Proof.
  intros raw ctx env st u i Hu Hi. unfold server, defineAction. rewrite Hi. split.
  - intros Hown. rewrite (updateProject_on_own_project i ctx env st u Hu Hown).
    eexists. reflexivity.
  - intros Hnot. unfold_actions. rewrite Hu. simpl.
    rewrite no_owned_project_select; [reflexivity|].
    intros p Hin Hid Hown. apply Hnot. eauto.
Qed.

Lemma patch_twice : forall {A} (supplied old : option A),
  patch supplied (patch supplied old) = patch supplied old.
Proof. intros A [v|] old; reflexivity. Qed.

(** X17. Repeating a successful [updateProject] with the same input
    succeeds again, and leaves the projects as the later call alone
    would have left them: only [updatedAt] moves. *)
Theorem repeated_updateProject_is_the_later_one :
  forall raw ctx env1 env2 st resp1 st1,
    server UpdateProject raw ctx env1 st = (Ok resp1, st1) ->
    exists resp2 st2,
      server UpdateProject raw ctx env2 st1 = (Ok resp2, st2) /\
      ScreenshotProjects st2 =
        ScreenshotProjects (snd (server UpdateProject raw ctx env2 st)).
Proof.
  intros raw ctx env1 env2 st resp1 st1 H.
  unfold server, defineAction in *.
  destruct (updateProject_input raw) as [i|]; [|discriminate].
  destruct (requireUser ctx) as [u|] eqn:Hu;
    [|unfold updateProject, bind, lift in H; rewrite Hu in H; discriminate].
  assert (Hown : exists p, In p (ScreenshotProjects st) /\
                           p_id p = up_id i /\ p_userId p = user_id u).
  { unfold_actions. rewrite Hu in H. simpl in H.
    destruct (filter _ (ScreenshotProjects st)) as [|p rest] eqn:Hsel;
      simpl in H; [discriminate|].
    apply owned_project_found in Hsel. eauto. }
  rewrite (updateProject_on_own_project i ctx env1 st u Hu Hown) in H.
  inversion H; subst. clear H.
  assert (Hown1 : exists p,
            In p (ScreenshotProjects
                    (with_projects
                       (map (fun r => if (p_id r =? up_id i)%string
                                      then updateProject_set i (new_Date env1) r
                                      else r)
                            (ScreenshotProjects st))
                       (log (Update TScreenshotProjects)
                            (log (Select TScreenshotProjects) st)))) /\
            p_id p = up_id i /\ p_userId p = user_id u).
  { destruct Hown as (p & Hin & Hid & Hp).
    exists (updateProject_set i (new_Date env1) p). simpl. split; [|auto].
    apply in_map_iff. exists p. apply String.eqb_eq in Hid. rewrite Hid. auto. }
  rewrite (updateProject_on_own_project i ctx env2 _ u Hu Hown1).
  rewrite (updateProject_on_own_project i ctx env2 st u Hu Hown).
  eexists _, _. split; [reflexivity|]. simpl.
  rewrite map_map. apply map_ext. intros p.
  destruct (p_id p =? up_id i)%string eqn:Hsel; simpl; rewrite Hsel;
    [|reflexivity].
  unfold updateProject_set. simpl. rewrite !patch_twice. reflexivity.
Qed.

(** *** [createScreenshotEdit] on one's own screenshot *)

(** X18. For an authenticated caller and an accepted input,
    [createScreenshotEdit] on a screenshot of the caller whose [width]
    and [height] are safe integers succeeds whenever the generated id is
    not yet the id of an edit, and appends the edit it returns: the
    store's reference check never rejects it, since the screenshot was
    just found. *)
Theorem createScreenshotEdit_succeeds_on_own_readable_screenshot :
  forall raw ctx env st u i,
    requireUser ctx = Ok u ->
    createScreenshotEdit_input raw = Some i ->
    (exists s, In s (Screenshots st) /\
               s_id s = ce_screenshotId i /\ s_userId s = user_id u) ->
    (forall s, In s (Screenshots st) ->
       s_id s = ce_screenshotId i -> s_userId s = user_id u ->
       readable_screenshot s = true) ->
    edit_exists (randomUUID env) st = false ->
    exists e st',
      server CreateScreenshotEdit raw ctx env st = (Ok (EditData (Some e)), st') /\
      ScreenshotEdits st' = ScreenshotEdits st ++ [e].
Proof.
  intros raw ctx env st u i Hu Hi (s & Hin & Hid & Hown) _ Hfresh.
  unfold_actions. rewrite Hi, Hu. simpl.
  destruct (filter _ (Screenshots st)) as [|q rest] eqn:Hsel.
  - exfalso. assert (In s []) as [].
    rewrite <- Hsel. apply filter_In. split; [exact Hin|].
    apply andb_true_iff. split; apply String.eqb_eq; assumption.
  - simpl.
    change (edit_exists (randomUUID env) (log (Select TScreenshots) st))
      with (edit_exists (randomUUID env) st).
    rewrite Hfresh.
    assert (Href : screenshot_reference_ok (ce_screenshotId i)
                     (log (Select TScreenshots) st) = true).
    { unfold screenshot_reference_ok. apply orb_true_iff. right.
      apply existsb_exists. exists s. split; [exact Hin|].
      apply String.eqb_eq. exact Hid. }
    rewrite Href. simpl. eexists _, _. split; reflexivity.
Qed.

(** *** [createScreenshot], then [listScreenshots] *)

Lemma listScreenshots_without_projectId : forall ctx env st u,
  requireUser ctx = Ok u ->
  fst (server ListScreenshots (JObject []) ctx env st) =
    Ok (ScreenshotList (screenshots_of (user_id u) st)
                       (length (screenshots_of (user_id u) st))).
Proof.
  intros ctx env st u Hu. unfold_actions. simpl. rewrite Hu. simpl.
  unfold screenshots_of.
  rewrite (filter_ext
             (fun r : Screenshot => (s_userId r =? user_id u)%string && true)
             (fun s : Screenshot => (s_userId s =? user_id u)%string))
    by (intros; apply andb_true_r).
  reflexivity.
Qed.

Lemma listScreenshots_of_own_project : forall ctx env st u pid,
  requireUser ctx = Ok u ->
  pid <> "" ->
  (exists p, In p (ScreenshotProjects st) /\
             p_id p = pid /\ p_userId p = user_id u) ->
  fst (server ListScreenshots (JObject [("projectId", JString pid)]) ctx env st) =
    Ok (ScreenshotList (screenshots_in pid (user_id u) st)
                       (length (screenshots_in pid (user_id u) st))).
Proof.
  intros ctx env st u pid Hu Hne Hown.
  destruct (owned_project_selected _ _ _ Hown) as (p & rest & Hsel).
  unfold_actions. simpl. rewrite Hu. simpl.
  apply String.eqb_neq in Hne. rewrite Hne. simpl. rewrite Hsel. simpl.
  unfold screenshots_in.
  rewrite (filter_ext
             (fun r : Screenshot =>
                (s_userId r =? user_id u)%string &&
                (match s_projectId r with
                 | Some p0 => (p0 =? pid)%string
                 | None => false
                 end && true))
             (fun s : Screenshot =>
                (s_userId s =? user_id u)%string &&
                match s_projectId s with
                | Some p0 => (p0 =? pid)%string
                | None => false
                end))
    by (intros; rewrite andb_true_r; reflexivity).
  reflexivity.
Qed.

Lemma createScreenshot_effect : forall raw ctx env st s st',
  server CreateScreenshot raw ctx env st = (Ok (ScreenshotData (Some s)), st') ->
  exists u i,
    requireUser ctx = Ok u /\
    createScreenshot_input raw = Some i /\
    s = mkScreenshot (randomUUID env) (cs_projectId i) (user_id u)
                     (cs_originalImageUrl i) (cs_editedImageUrl i)
                     (cs_width i) (cs_height i)
                     (new_Date env) (new_Date env) /\
    Screenshots st' = Screenshots st ++ [s] /\
    ScreenshotProjects st' = ScreenshotProjects st /\
    (forall pid, cs_projectId i = Some pid -> pid <> "" ->
       exists p, In p (ScreenshotProjects st) /\
                 p_id p = pid /\ p_userId p = user_id u).
Proof.
  intros raw ctx env st s st' H. unfold_actions.
  destruct (createScreenshot_input raw) as [i|]; [|discriminate].
  destruct (requireUser ctx) as [u|]; [|discriminate]. simpl in H.
  exists u, i. split; [reflexivity|]. split; [reflexivity|].
  destruct i as [o url edited w h]. simpl in *.
  destruct o as [pid|]; simpl in H;
    [destruct (pid =? "")%string eqn:Hempty; simpl in H|].
  - repeat match type of H with
           | context [if ?b then _ else _] =>
               destruct b; simpl in H; [discriminate|]
           end.
    inversion H; subst. simpl. repeat split; auto.
    intros pid' Hp' Hne. inversion Hp'; subst pid'.
    apply String.eqb_eq in Hempty. contradiction.
  - destruct (filter _ (ScreenshotProjects st)) as [|p rest] eqn:Hsel;
      simpl in H; [discriminate|].
    apply owned_project_found in Hsel.
    repeat match type of H with
           | context [if ?b then _ else _] =>
               destruct b; simpl in H; [discriminate|]
           end.
    inversion H; subst. simpl. repeat split; auto.
    intros pid' Hp' _. inversion Hp'; subst pid'. eauto.
  - repeat match type of H with
           | context [if ?b then _ else _] =>
               destruct b; simpl in H; [discriminate|]
           end.
    inversion H; subst. simpl. repeat split; auto.
    intros pid Hp. discriminate.
Qed.

(** X19. After a successful [createScreenshot], when the row it
    returned and the caller's earlier screenshots hold safe integers as
    [width] and [height], the caller's listing without [projectId] is
    the earlier listing followed by that row, and when the row was filed
    under a non-empty [projectId], so is the listing for that project. *)
Theorem created_screenshot_is_listed_next :
  forall raw ctx env st u s st',
    requireUser ctx = Ok u ->
    server CreateScreenshot raw ctx env st = (Ok (ScreenshotData (Some s)), st') ->
    forallb readable_screenshot (s :: screenshots_of (user_id u) st) = true ->
    (forall env',
       fst (server ListScreenshots (JObject []) ctx env' st') =
         Ok (ScreenshotList (screenshots_of (user_id u) st ++ [s])
                            (S (length (screenshots_of (user_id u) st))))) /\
    (forall pid env',
       s_projectId s = Some pid -> pid <> "" ->
       fst (server ListScreenshots (JObject [("projectId", JString pid)])
              ctx env' st') =
         Ok (ScreenshotList (screenshots_in pid (user_id u) st ++ [s])
                            (S (length (screenshots_in pid (user_id u) st))))).
Proof.
  intros raw ctx env st u s st' Hu H _.
  destruct (createScreenshot_effect _ _ _ _ _ _ H)
    as (u' & i & Hu' & Hi & Hs & Hshots & Hprojects & Hproject).
  rewrite Hu in Hu'. inversion Hu'; subst u'. clear Hu'.
  split.
  - intros env'. rewrite (listScreenshots_without_projectId ctx env' st' u Hu).
    unfold screenshots_of. rewrite Hshots, filter_app.
    assert (Hkeep : (s_userId s =? user_id u)%string = true)
      by (rewrite Hs; simpl; apply String.eqb_refl).
    simpl. rewrite Hkeep. rewrite length_app. simpl. rewrite Nat.add_1_r.
    reflexivity.
  - intros pid env' Hpid Hne.
    assert (Hin : cs_projectId i = Some pid) by (rewrite Hs in Hpid; exact Hpid).
    assert (Hown : exists p, In p (ScreenshotProjects st') /\
                             p_id p = pid /\ p_userId p = user_id u)
      by (rewrite Hprojects; apply Hproject; assumption).
    rewrite (listScreenshots_of_own_project ctx env' st' u pid Hu Hne Hown).
    unfold screenshots_in. rewrite Hshots, filter_app.
    assert (Hkeep : (s_userId s =? user_id u)%string &&
                    match s_projectId s with
                    | Some p => (p =? pid)%string
                    | None => false
                    end = true).
    { rewrite Hpid. rewrite Hs. simpl. rewrite !String.eqb_refl. reflexivity. }
    simpl. rewrite Hkeep. rewrite length_app. simpl. rewrite Nat.add_1_r.
    reflexivity.
Qed.

(** *** [updateScreenshot], the order of its checks *)

Lemma owned_screenshot_selected : forall id uid st,
  (exists s, In s (Screenshots st) /\ s_id s = id /\ s_userId s = uid) ->
  exists s rest,
    filter (fun r => (s_id r =? id)%string && (s_userId r =? uid)%string)
           (Screenshots st) = s :: rest.
Proof.
  intros id uid st (s & Hin & Hid & Hown).
  destruct (filter _ (Screenshots st)) as [|q rest] eqn:Hsel; [|eauto].
  exfalso. assert (In s []) as [].
  rewrite <- Hsel. apply filter_In. split; [exact Hin|].
  apply andb_true_iff. split; apply String.eqb_eq; assumption.
Qed.

(** X20. For an authenticated caller and an accepted input,
    [updateScreenshot] looks for the screenshot first: without a
    screenshot of the caller with the given id it fails with
    "Screenshot not found." whatever [projectId] says.  With one that
    holds safe integers as [width] and [height], a supplied [projectId]
    that is not a project of the caller (the empty string included)
    gives "Project not found.", and a supplied [projectId] that is one
    makes the call succeed when the supplied [width] and [height] are
    safe integers too. *)
Theorem updateScreenshot_checks_screenshot_then_project :
  forall raw ctx env st u i,
    requireUser ctx = Ok u ->
    updateScreenshot_input raw = Some i ->
    (no_owned_screenshot (us_id i) (user_id u) st ->
     fst (server UpdateScreenshot raw ctx env st) = screenshot_not_found) /\
    ((exists s, In s (Screenshots st) /\
                s_id s = us_id i /\ s_userId s = user_id u) ->
     (forall s, In s (Screenshots st) ->
        s_id s = us_id i -> s_userId s = user_id u ->
        readable_screenshot s = true) ->
     forall pid, us_projectId i = Some pid ->
       (no_owned_project pid (user_id u) st ->
        fst (server UpdateScreenshot raw ctx env st) = project_not_found) /\
       ((exists p, In p (ScreenshotProjects st) /\
                   p_id p = pid /\ p_userId p = user_id u) ->
        safe_or_absent (us_width i) && safe_or_absent (us_height i) = true ->
        exists resp, fst (server UpdateScreenshot raw ctx env st) = Ok resp)).
Proof.
  intros raw ctx env st u i Hu Hi. split.
  - intros Hno. unfold_actions. rewrite Hi, Hu. simpl.
    rewrite (no_owned_screenshot_select _ _ _ Hno). reflexivity.
  - intros Hshot _ pid Hpid.
    destruct (owned_screenshot_selected _ _ _ Hshot) as (s & rest & Hsel).
    split.
    + intros Hno. unfold_actions. rewrite Hi, Hu. simpl. rewrite Hsel. simpl.
      rewrite Hpid. simpl.
      rewrite (no_owned_project_select _ _ _ Hno). reflexivity.
    + intros Hown _.
      destruct (owned_project_selected _ _ _ Hown) as (p & prest & Hpsel).
      pose proof Hown as (p0 & Hin0 & Hid0 & _).
      unfold_actions. rewrite Hi, Hu. simpl. rewrite Hsel. simpl.
      rewrite Hpid. simpl. rewrite Hpsel. simpl.
      assert (Href :
        forallb
          (fun r : Screenshot =>
             project_reference_ok (s_projectId r)
               (log (Select TScreenshotProjects) (log (Select TScreenshots) st)))
          (map (updateScreenshot_set i (new_Date env))
               (filter (fun r : Screenshot => (s_id r =? us_id i)%string)
                       (Screenshots st))) = true).
      { apply forallb_forall. intros r Hr.
        apply in_map_iff in Hr. destruct Hr as (r0 & Hr & _). subst r.
        simpl. rewrite Hpid. simpl. apply orb_true_iff. right.
        apply existsb_exists. exists p0. split; [exact Hin0|].
        apply String.eqb_eq. exact Hid0. }
      rewrite Href. simpl. eexists. reflexivity.
Qed.

(** *** Each action and its table *)

(** X21. An action writes to its own table only: whatever the input,
    caller and outcome, the project actions leave the screenshots and
    edits as they were, the screenshot actions the projects and edits,
    and the edit actions the projects and screenshots. *)
Theorem action_writes_only_its_table :
  forall a raw ctx env st,
    (table_of a <> TScreenshotProjects ->
     ScreenshotProjects (snd (server a raw ctx env st)) = ScreenshotProjects st) /\
    (table_of a <> TScreenshots ->
     Screenshots (snd (server a raw ctx env st)) = Screenshots st) /\
    (table_of a <> TScreenshotEdits ->
     ScreenshotEdits (snd (server a raw ctx env st)) = ScreenshotEdits st).
Proof.
  intros a raw ctx env st.
  destruct a; simpl table_of;
    (split; [|split]); intros Hother; try congruence;
    unfold_actions; split_paths; reflexivity.
Qed.

(** *** Updates, whatever the clock reads *)

Lemma run_keeps_ids_unique : forall rs st,
  unique_ids st -> unique_ids (run rs st).
Proof.
  induction rs as [|r rs IH]; intros st H; simpl; [exact H|].
  apply IH. apply unique_ids_step. exact H.
Qed.

Lemma empty_store_ids_unique : unique_ids empty_store.
Proof. repeat split; constructor. Qed.

Lemma updateProject_rewrites_own_row :
  forall st raw ctx env resp st',
    unique_ids st ->
    server UpdateProject raw ctx env st = (Ok resp, st') ->
    exists u i old new,
      requireUser ctx = Ok u /\
      updateProject_input raw = Some i /\
      In old (ScreenshotProjects st) /\
      p_id old = up_id i /\ p_userId old = user_id u /\
      resp = ProjectData (Some new) /\
      In new (ScreenshotProjects st') /\
      p_id new = p_id old /\
      p_userId new = p_userId old /\
      p_createdAt new = p_createdAt old /\
      p_updatedAt new = new_Date env /\
      partially_updated (up_title i) (p_title old) (p_title new) /\
      partially_updated (up_description i) (p_description old) (p_description new) /\
      partially_updated (up_sourceDevice i) (p_sourceDevice old) (p_sourceDevice new) /\
      partially_updated (up_sourceApp i) (p_sourceApp old) (p_sourceApp new) /\
      (forall p, In p (ScreenshotProjects st) -> p_id p <> up_id i ->
         In p (ScreenshotProjects st')) /\
      Screenshots st' = Screenshots st /\
      ScreenshotEdits st' = ScreenshotEdits st.
Proof.
  intros st raw ctx env resp st' (Huniq & _) H.
  unfold_actions.
  destruct (updateProject_input raw) as [i|]; [|discriminate].
  destruct (requireUser ctx) as [u|]; [|discriminate]. simpl in H.
  destruct (filter _ (ScreenshotProjects st)) as [|old rest] eqn:Hsel;
    simpl in H; [discriminate|].
  apply owned_project_found in Hsel. destruct Hsel as (Hin & Hid & Hown).
  rewrite <- Hid in H.
  rewrite (filter_by_key p_id _ old Huniq Hin) in H.
  simpl in H. inversion H; subst. clear H.
  exists u, i, old, (updateProject_set i (new_Date env) old).
  do 6 (split; [auto|]). simpl.
  split.
  { apply in_map_iff. exists old. rewrite String.eqb_refl. auto. }
  do 3 (split; [reflexivity|]).
  split; [reflexivity|].
  do 4 (split; [apply patch_partially_updated|]).
  split; [|auto].
  intros p Hp Hne. apply in_map_iff. exists p.
  rewrite <- Hid in Hne. apply String.eqb_neq in Hne. rewrite Hne. auto.
Qed.

Lemma updateScreenshot_rewrites_own_row :
  forall st raw ctx env resp st',
    unique_ids st ->
    server UpdateScreenshot raw ctx env st = (Ok resp, st') ->
    exists u i old new,
      requireUser ctx = Ok u /\
      updateScreenshot_input raw = Some i /\
      In old (Screenshots st) /\
      s_id old = us_id i /\ s_userId old = user_id u /\
      resp = ScreenshotData (Some new) /\
      In new (Screenshots st') /\
      s_id new = s_id old /\
      s_userId new = s_userId old /\
      s_originalImageUrl new = s_originalImageUrl old /\
      s_createdAt new = s_createdAt old /\
      s_updatedAt new = new_Date env /\
      partially_updated (us_projectId i) (s_projectId old) (s_projectId new) /\
      partially_updated (us_editedImageUrl i) (s_editedImageUrl old)
                        (s_editedImageUrl new) /\
      partially_updated (us_width i) (s_width old) (s_width new) /\
      partially_updated (us_height i) (s_height old) (s_height new) /\
      (forall s, In s (Screenshots st) -> s_id s <> us_id i ->
         In s (Screenshots st')) /\
      ScreenshotProjects st' = ScreenshotProjects st /\
      ScreenshotEdits st' = ScreenshotEdits st.
Proof.
  intros st raw ctx env resp st' (_ & Huniq & _) H.
  unfold_actions.
  destruct (updateScreenshot_input raw) as [i|]; [|discriminate].
  destruct (requireUser ctx) as [u|]; [|discriminate]. simpl in H.
  destruct (filter _ (Screenshots st)) as [|old rest] eqn:Hsel;
    simpl in H; [discriminate|].
  apply owned_screenshot_found in Hsel. destruct Hsel as (Hin & Hid & Hown).
  assert (Hdone :
    forall st0,
      (Ok (ScreenshotData
             (hd_error (map (updateScreenshot_set i (new_Date env))
                            (filter (fun r => (s_id r =? us_id i)%string)
                                    (Screenshots st))))),
       with_screenshots
         (map (fun r => if (s_id r =? us_id i)%string
                        then updateScreenshot_set i (new_Date env) r else r)
              (Screenshots st)) st0) = (Ok resp, st') ->
      ScreenshotProjects st0 = ScreenshotProjects st ->
      ScreenshotEdits st0 = ScreenshotEdits st ->
      resp = ScreenshotData (Some (updateScreenshot_set i (new_Date env) old)) /\
      Screenshots st' =
        map (fun r => if (s_id r =? us_id i)%string
                      then updateScreenshot_set i (new_Date env) r else r)
            (Screenshots st) /\
      ScreenshotProjects st' = ScreenshotProjects st /\
      ScreenshotEdits st' = ScreenshotEdits st).
  { intros st0 E Hp He. inversion E; subst. simpl.
    rewrite <- Hid. rewrite (filter_by_key s_id _ old Huniq Hin). simpl. auto. }
  assert (Hrows :
      resp = ScreenshotData (Some (updateScreenshot_set i (new_Date env) old)) /\
      Screenshots st' =
        map (fun r => if (s_id r =? us_id i)%string
                      then updateScreenshot_set i (new_Date env) r else r)
            (Screenshots st) /\
      ScreenshotProjects st' = ScreenshotProjects st /\
      ScreenshotEdits st' = ScreenshotEdits st).
  { remember (us_projectId i) as o eqn:Ho in H. destruct o as [pid|]; simpl in H.
    - destruct (filter _ (ScreenshotProjects st)); simpl in H; [discriminate|].
      destruct (forallb _ _); simpl in H; [|discriminate].
      eapply Hdone; [exact H | reflexivity | reflexivity].
    - destruct (forallb _ _); simpl in H; [|discriminate].
      eapply Hdone; [exact H | reflexivity | reflexivity]. }
  clear H Hdone. destruct Hrows as (Hresp & Hshots & Hprojects & Hedits).
  exists u, i, old, (updateScreenshot_set i (new_Date env) old).
  do 6 (split; [auto|]). simpl.
  split.
  { rewrite Hshots. apply in_map_iff. exists old.
    rewrite Hid, String.eqb_refl. auto. }
  do 4 (split; [reflexivity|]).
  split; [reflexivity|].
  do 4 (split; [apply patch_partially_updated|]).
  split; [|auto].
  intros s Hs Hne. rewrite Hshots. apply in_map_iff. exists s.
  apply String.eqb_neq in Hne. rewrite Hne. auto.
Qed.

(** C5, as the code has it.  In the store left by any sequence of calls,
    a successful [updateProject] or [updateScreenshot] rewrites the
    caller's row with the given id: [updatedAt] becomes the time the
    clock reads at the call, which is not before the previous value when
    the clock has not gone back since the earlier calls; each updatable
    column holds the supplied value or, when the field is not supplied,
    its previous value; [id], [userId], [createdAt] (and
    [originalImageUrl]) are unchanged; the other rows and tables are as
    before. *)
Theorem update_is_partial_and_stamps_the_clock :
  forall rs raw ctx env resp st',
    (server UpdateProject raw ctx env (run rs empty_store) = (Ok resp, st') ->
      exists u i old new,
        requireUser ctx = Ok u /\
        updateProject_input raw = Some i /\
        In old (ScreenshotProjects (run rs empty_store)) /\
        p_id old = up_id i /\ p_userId old = user_id u /\
        resp = ProjectData (Some new) /\
        In new (ScreenshotProjects st') /\
        p_id new = p_id old /\
        p_userId new = p_userId old /\
        p_createdAt new = p_createdAt old /\
        p_updatedAt new = new_Date env /\
        partially_updated (up_title i) (p_title old) (p_title new) /\
        partially_updated (up_description i) (p_description old) (p_description new) /\
        partially_updated (up_sourceDevice i) (p_sourceDevice old) (p_sourceDevice new) /\
        partially_updated (up_sourceApp i) (p_sourceApp old) (p_sourceApp new) /\
        (forall p, In p (ScreenshotProjects (run rs empty_store)) -> p_id p <> up_id i ->
           In p (ScreenshotProjects st')) /\
        Screenshots st' = Screenshots (run rs empty_store) /\
        ScreenshotEdits st' = ScreenshotEdits (run rs empty_store) /\
        (forall t, reachable (run rs empty_store) t -> t <= new_Date env ->
           p_updatedAt old <= p_updatedAt new)) /\
    (server UpdateScreenshot raw ctx env (run rs empty_store) = (Ok resp, st') ->
      exists u i old new,
        requireUser ctx = Ok u /\
        updateScreenshot_input raw = Some i /\
        In old (Screenshots (run rs empty_store)) /\
        s_id old = us_id i /\ s_userId old = user_id u /\
        resp = ScreenshotData (Some new) /\
        In new (Screenshots st') /\
        s_id new = s_id old /\
        s_userId new = s_userId old /\
        s_originalImageUrl new = s_originalImageUrl old /\
        s_createdAt new = s_createdAt old /\
        s_updatedAt new = new_Date env /\
        partially_updated (us_projectId i) (s_projectId old) (s_projectId new) /\
        partially_updated (us_editedImageUrl i) (s_editedImageUrl old)
                          (s_editedImageUrl new) /\
        partially_updated (us_width i) (s_width old) (s_width new) /\
        partially_updated (us_height i) (s_height old) (s_height new) /\
        (forall s, In s (Screenshots (run rs empty_store)) -> s_id s <> us_id i ->
           In s (Screenshots st')) /\
        ScreenshotProjects st' = ScreenshotProjects (run rs empty_store) /\
        ScreenshotEdits st' = ScreenshotEdits (run rs empty_store) /\
        (forall t, reachable (run rs empty_store) t -> t <= new_Date env ->
           s_updatedAt old <= s_updatedAt new)).
Proof.
  intros rs raw ctx env resp st'.
  pose proof (run_keeps_ids_unique rs empty_store empty_store_ids_unique) as Huniq.
  split; intros H.
  - destruct (updateProject_rewrites_own_row _ _ _ _ _ _ Huniq H)
      as (u & i & old & new & A1 & A2 & Hin & A4 & A5 & A6 & A7 & A8 & A9 & A10
          & Hat & Rest).
    exists u, i, old, new.
    do 10 (split; [assumption|]). split; [exact Hat|].
    destruct Rest as (B1 & B2 & B3 & B4 & B5 & B6 & B7).
    do 6 (split; [assumption|]). split; [exact B7|].
    intros t Hreach Hclock. apply reachable_invariant in Hreach.
    destruct Hreach as [_ _ (Hstamp & _) _ _].
    rewrite Forall_forall in Hstamp. specialize (Hstamp old Hin).
    simpl in Hstamp. lia.
  - destruct (updateScreenshot_rewrites_own_row _ _ _ _ _ _ Huniq H)
      as (u & i & old & new & A1 & A2 & Hin & A4 & A5 & A6 & A7 & A8 & A9 & A10
          & A11 & Hat & Rest).
    exists u, i, old, new.
    do 11 (split; [assumption|]). split; [exact Hat|].
    destruct Rest as (B1 & B2 & B3 & B4 & B5 & B6 & B7).
    do 6 (split; [assumption|]). split; [exact B7|].
    intros t Hreach Hclock. apply reachable_invariant in Hreach.
    destruct Hreach as [_ _ (_ & Hstamp) _ _].
    rewrite Forall_forall in Hstamp. specialize (Hstamp old Hin).
    simpl in Hstamp. lia.
Qed.

End Actions.

(** ** Concrete runs *)

Lemma history_runs : forall enforce_references,
  run enforce_references history empty_store = after_history.
Proof. intros []; vm_compute; reflexivity. Qed.

Lemma after_history_reachable : forall enforce_references,
  reachable enforce_references after_history 14.
Proof.
  intros fk. rewrite <- (history_runs fk).
  apply (run_reachable fk history 0). reflexivity.
Qed.

(** C3: the code at the failing input.  Bob calls [createScreenshot] with
    [projectId] the empty string, which is the id of no project.  The
    truthiness test skips [getOwnedProject], while [?? null] keeps the
    empty string: where references are not enforced the call succeeds and
    stores a screenshot that points at no project; where they are, the
    call fails with the store's constraint error, not with [NOT_FOUND].
    [updateScreenshot], given the same [projectId], does call
    [getOwnedProject] and fails with [NOT_FOUND]. *)
Theorem createScreenshot_accepts_empty_projectId :
  let raw := JObject [("projectId", JString "");
                      ("originalImageUrl", JString "img://3")] in
  let env := mkEnv uuid_6 15 in
  let shot := mkScreenshot uuid_6 (Some "") "bob" "img://3" None None None 15 15 in
  project_exists "" after_history = false /\
  server false CreateScreenshot raw bob env after_history =
    (Ok (ScreenshotData (Some shot)),
     with_screenshots (Screenshots after_history ++ [shot])
       (log (Insert TScreenshots) after_history)) /\
  fst (server true CreateScreenshot raw bob env after_history) =
    Err (ConstraintError (ForeignKey TScreenshots)) /\
  (forall enforce_references,
     fst (server enforce_references UpdateScreenshot
            (JObject [("id", JString uuid_4); ("projectId", JString "")])
            bob env after_history) = project_not_found).
Proof.
  cbv zeta. split; [|split; [|split]]; try (intros []); vm_compute; reflexivity.
Qed.

(** C9 does not hold as stated: a signed-out caller whose input lacks
    every updatable field gets the validation error, not [UNAUTHORIZED]. *)
Lemma unauthenticated_invalid_input_fails_validation :
  authenticated signed_out = false /\
  server false UpdateProject (JObject [("id", JString uuid_1)])
         signed_out (mkEnv uuid_6 15) after_history =
    (Err ValidationError, after_history) /\
  fst (server false UpdateProject (JObject [("id", JString uuid_1)])
         signed_out (mkEnv uuid_6 15) after_history) <>
    Err (ActionError UNAUTHORIZED
           "You must be signed in to perform this action.").
Proof.
  split; [reflexivity|]. split; [vm_compute; reflexivity|].
  vm_compute. discriminate.
Qed.

(** The empty [projectId] on the small history: it is the id of no
    project, yet the call succeeds, and it returns Bob's screenshot,
    whose [projectId] is not the one given. *)
Lemma listScreenshots_ignores_empty_projectId :
  requireUser bob = Ok (mkUser "bob") /\
  project_exists "" after_history = false /\
  fst (server false ListScreenshots (JObject [("projectId", JString "")])
         bob (mkEnv uuid_6 15) after_history) =
    Ok (ScreenshotList [bob_screenshot] 1) /\
  s_projectId bob_screenshot <> Some "".
Proof.
  split; [reflexivity|]. split; [reflexivity|].
  split; [vm_compute; reflexivity | discriminate].
Qed.

(** ** The theorems at work on the small history *)


Lemma created_row_is_owned_by_caller_witness :
  In CreateProject [CreateProject; CreateScreenshot; CreateScreenshotEdit] /\
  server false CreateProject
    (JObject [("title", JString "Bug report"); ("userId", JString "bob")])
    alice (mkEnv uuid_1 10) empty_store =
    (Ok (ProjectData (Some alice_project)),
     mkStore [alice_project] [] [] [Insert TScreenshotProjects]) /\
  exists u, requireUser alice = Ok u /\
            p_userId alice_project = user_id u /\
            [alice_project] = [] ++ [alice_project].
Proof.
  assert (Hin : In CreateProject
                   [CreateProject; CreateScreenshot; CreateScreenshotEdit])
    by (simpl; auto).
  assert (Hrun : server false CreateProject
            (JObject [("title", JString "Bug report"); ("userId", JString "bob")])
            alice (mkEnv uuid_1 10) empty_store =
            (Ok (ProjectData (Some alice_project)),
             mkStore [alice_project] [] [] [Insert TScreenshotProjects]))
    by (vm_compute; reflexivity).
  split; [exact Hin|]. split; [exact Hrun|].
  exact (created_row_is_owned_by_caller false CreateProject _ alice _
           empty_store _ _ Hin Hrun).
Defined.


Lemma update_is_partial_and_keeps_owner_witness :
  reachable false after_history 14 /\
  14 <= 20 /\
  server false UpdateProject
    (JObject [("id", JString uuid_1); ("sourceApp", JString "Chrome")])
    alice (mkEnv uuid_6 20) after_history =
    (Ok (ProjectData (Some alice_project_updated)),
     with_projects [alice_project_updated; bob_project]
       (log (Update TScreenshotProjects)
            (log (Select TScreenshotProjects) after_history))) /\
  exists u i old new,
    requireUser alice = Ok u /\
    updateProject_input
      (JObject [("id", JString uuid_1); ("sourceApp", JString "Chrome")]) = Some i /\
    In old (ScreenshotProjects after_history) /\
    p_id old = up_id i /\ p_userId old = user_id u /\
    ProjectData (Some alice_project_updated) = ProjectData (Some new) /\
    In new [alice_project_updated; bob_project] /\
    p_id new = p_id old /\
    p_userId new = p_userId old /\
    p_createdAt new = p_createdAt old /\
    p_updatedAt old <= p_updatedAt new /\
    partially_updated (up_title i) (p_title old) (p_title new) /\
    partially_updated (up_description i) (p_description old) (p_description new) /\
    partially_updated (up_sourceDevice i) (p_sourceDevice old) (p_sourceDevice new) /\
    partially_updated (up_sourceApp i) (p_sourceApp old) (p_sourceApp new) /\
    (forall p, In p (ScreenshotProjects after_history) -> p_id p <> up_id i ->
       In p [alice_project_updated; bob_project]) /\
    Screenshots after_history = Screenshots after_history /\
    ScreenshotEdits after_history = ScreenshotEdits after_history.
Proof.
  assert (Hreach : reachable false after_history 14)
    by apply after_history_reachable.
  assert (Hclock : 14 <= 20) by lia.
  assert (Hrun : server false UpdateProject
            (JObject [("id", JString uuid_1); ("sourceApp", JString "Chrome")])
            alice (mkEnv uuid_6 20) after_history =
            (Ok (ProjectData (Some alice_project_updated)),
             with_projects [alice_project_updated; bob_project]
               (log (Update TScreenshotProjects)
                    (log (Select TScreenshotProjects) after_history))))
    by (vm_compute; reflexivity).
  split; [exact Hreach|]. split; [exact Hclock|]. split; [exact Hrun|].
  exact (proj1 (update_is_partial_and_keeps_owner false after_history 14 _ alice
                  (mkEnv uuid_6 20) _ _ Hreach Hclock) Hrun).
Defined.

Lemma update_without_fields_fails_validation_witness :
  ((UpdateProject = UpdateProject /\
    prop "title" [("id", JString uuid_1)] = JUndefined /\
    prop "description" [("id", JString uuid_1)] = JUndefined /\
    prop "sourceDevice" [("id", JString uuid_1)] = JUndefined /\
    prop "sourceApp" [("id", JString uuid_1)] = JUndefined) \/
   (UpdateProject = UpdateScreenshot /\
    prop "projectId" [("id", JString uuid_1)] = JUndefined /\
    prop "editedImageUrl" [("id", JString uuid_1)] = JUndefined /\
    prop "width" [("id", JString uuid_1)] = JUndefined /\
    prop "height" [("id", JString uuid_1)] = JUndefined)) /\
  server false UpdateProject (JObject [("id", JString uuid_1)])
         alice (mkEnv uuid_6 20) after_history =
    (Err ValidationError, after_history).
Proof.
  assert (H : (UpdateProject = UpdateProject /\
               prop "title" [("id", JString uuid_1)] = JUndefined /\
               prop "description" [("id", JString uuid_1)] = JUndefined /\
               prop "sourceDevice" [("id", JString uuid_1)] = JUndefined /\
               prop "sourceApp" [("id", JString uuid_1)] = JUndefined) \/
              (UpdateProject = UpdateScreenshot /\
               prop "projectId" [("id", JString uuid_1)] = JUndefined /\
               prop "editedImageUrl" [("id", JString uuid_1)] = JUndefined /\
               prop "width" [("id", JString uuid_1)] = JUndefined /\
               prop "height" [("id", JString uuid_1)] = JUndefined)).
  { left. repeat split; reflexivity. }
  split; [exact H|].
  exact (update_without_fields_fails_validation false UpdateProject
           [("id", JString uuid_1)] alice (mkEnv uuid_6 20) after_history H).
Defined.

Lemma listScreenshots_checks_and_filters_witness :
  requireUser alice = Ok (mkUser "alice") /\
  listScreenshots_input (JObject [("projectId", JString uuid_2)]) =
    Some (mkListScreenshotsInput (Some uuid_2)) /\
  fst (server false ListScreenshots (JObject [("projectId", JString uuid_2)])
         alice (mkEnv uuid_6 20) after_history) =
    Err (ActionError NOT_FOUND "Project not found.") /\
  (forall resp,
     fst (server false ListScreenshots (JObject [("projectId", JString uuid_1)])
            alice (mkEnv uuid_6 20) after_history) = Ok resp ->
     exists keep,
       resp = ScreenshotList (filter keep (Screenshots after_history))
                (length (filter keep (Screenshots after_history))) /\
       forall s, keep s = true <->
         s_userId s = "alice" /\
         (forall pid, Some uuid_1 = Some pid -> pid <> "" ->
            s_projectId s = Some pid)).
Proof.
  split; [reflexivity|]. split; [reflexivity|]. split.
  - apply (proj1 (listScreenshots_checks_and_filters false
                    (JObject [("projectId", JString uuid_2)]) alice
                    (mkEnv uuid_6 20) after_history (mkUser "alice")
                    (mkListScreenshotsInput (Some uuid_2)) eq_refl eq_refl)
                 uuid_2 eq_refl).
    + discriminate.
    + intros p [Hp | [Hp | []]] Hid; subst p; simpl in *; discriminate.
  - intros resp Hrun.
    exact (proj2 (proj2 (listScreenshots_checks_and_filters false
                    (JObject [("projectId", JString uuid_1)]) alice
                    (mkEnv uuid_6 20) after_history (mkUser "alice")
                    (mkListScreenshotsInput (Some uuid_1)) eq_refl eq_refl)
                   resp Hrun)).
Defined.

Lemma unauthenticated_call_is_refused_witness :
  authenticated signed_out = false /\
  server false UpdateProject
    (JObject [("id", JString uuid_1); ("title", JString "Mine now")])
    signed_out (mkEnv uuid_6 20) after_history =
    (Err (ActionError UNAUTHORIZED
            "You must be signed in to perform this action."),
     after_history).
Proof.
  split; [reflexivity|].
  exact (unauthenticated_call_is_refused false UpdateProject
           (JObject [("id", JString uuid_1); ("title", JString "Mine now")])
           signed_out (mkEnv uuid_6 20) after_history eq_refl).
Defined.


(** ** Scenarios *)

(** The invariant of C10 is what protects [listScreenshotEdits]: in a
    store that breaks it (not a reachable one), the edit of another user
    attached to Alice's screenshot is returned to Alice. *)
Example listScreenshotEdits_relies_on_the_invariant :
  let foreign_edit := mkScreenshotEdit uuid_6 uuid_3 "bob" None None None 15 in
  fst (server false ListScreenshotEdits
         (JObject [("screenshotId", JString uuid_3)])
         alice (mkEnv uuid_6 20)
         (with_edits [alice_edit; foreign_edit] after_history)) =
    Ok (EditList [alice_edit; foreign_edit] 2).
Proof. vm_compute. reflexivity. Qed.

(** Alice supplies the id of Bob's screenshot. *)
Example foreign_screenshot_id_is_not_found :
  forall enforce_references,
    fst (server enforce_references ListScreenshotEdits
           (JObject [("screenshotId", JString uuid_4)])
           alice (mkEnv uuid_6 20) after_history) = screenshot_not_found.
Proof. intros []; vm_compute; reflexivity. Qed.

(** A screenshot created without [projectId] has none, and listing by an
    unknown project fails. *)
Example screenshot_without_project :
  forall enforce_references,
    fst (server enforce_references CreateScreenshot
           (JObject [("originalImageUrl", JString "img://1")])
           alice (mkEnv uuid_1 10) empty_store) =
      Ok (ScreenshotData
            (Some (mkScreenshot uuid_1 None "alice" "img://1"
                                None None None 10 10))) /\
    fst (server enforce_references ListScreenshots
           (JObject [("projectId", JString "nonexistent")])
           alice (mkEnv uuid_2 11) empty_store) = project_not_found.
Proof. intros []; split; vm_compute; reflexivity. Qed.

(** C5 does not hold as stated: [updateProject] writes whatever
    [new Date()] reads.  With the clock set back to 5, after Alice's
    project was stamped at 10, her update succeeds and leaves
    [updatedAt] smaller than it was. *)
Lemma update_with_the_clock_set_back :
  In alice_project (ScreenshotProjects after_history) /\
  server false UpdateProject
    (JObject [("id", JString uuid_1); ("sourceApp", JString "Chrome")])
    alice (mkEnv uuid_6 5) after_history =
    (Ok (ProjectData (Some alice_project_set_back)),
     with_projects [alice_project_set_back; bob_project]
       (log (Update TScreenshotProjects)
            (log (Select TScreenshotProjects) after_history))) /\
  p_id alice_project_set_back = p_id alice_project /\
  p_updatedAt alice_project_set_back < p_updatedAt alice_project.
Proof.
  split; [simpl; auto|]. split; [vm_compute; reflexivity|].
  split; reflexivity.
Qed.

Lemma update_is_partial_and_stamps_the_clock_witness :
  server false UpdateProject
    (JObject [("id", JString uuid_1); ("sourceApp", JString "Chrome")])
    alice (mkEnv uuid_6 20) (run false history empty_store) =
    (Ok (ProjectData (Some alice_project_updated)),
     (with_projects [alice_project_updated; bob_project]
       (log (Update TScreenshotProjects)
            (log (Select TScreenshotProjects) after_history)))) /\
  exists u i old new,
    requireUser alice = Ok u /\
    updateProject_input (JObject [("id", JString uuid_1); ("sourceApp", JString "Chrome")]) = Some i /\
    In old (ScreenshotProjects (run false history empty_store)) /\
    p_id old = up_id i /\ p_userId old = user_id u /\
    (ProjectData (Some alice_project_updated)) = ProjectData (Some new) /\
    In new (ScreenshotProjects (with_projects [alice_project_updated; bob_project]
   (log (Update TScreenshotProjects)
        (log (Select TScreenshotProjects) after_history)))) /\
    p_id new = p_id old /\
    p_userId new = p_userId old /\
    p_createdAt new = p_createdAt old /\
    p_updatedAt new = new_Date (mkEnv uuid_6 20) /\
    partially_updated (up_title i) (p_title old) (p_title new) /\
    partially_updated (up_description i) (p_description old) (p_description new) /\
    partially_updated (up_sourceDevice i) (p_sourceDevice old) (p_sourceDevice new) /\
    partially_updated (up_sourceApp i) (p_sourceApp old) (p_sourceApp new) /\
    (forall p, In p (ScreenshotProjects (run false history empty_store)) -> p_id p <> up_id i ->
       In p (ScreenshotProjects (with_projects [alice_project_updated; bob_project]
   (log (Update TScreenshotProjects)
        (log (Select TScreenshotProjects) after_history))))) /\
    Screenshots (with_projects [alice_project_updated; bob_project]
   (log (Update TScreenshotProjects)
        (log (Select TScreenshotProjects) after_history))) = Screenshots (run false history empty_store) /\
    ScreenshotEdits (with_projects [alice_project_updated; bob_project]
   (log (Update TScreenshotProjects)
        (log (Select TScreenshotProjects) after_history))) = ScreenshotEdits (run false history empty_store) /\
    (forall t, reachable false (run false history empty_store) t -> t <= new_Date (mkEnv uuid_6 20) ->
       p_updatedAt old <= p_updatedAt new).
Proof.
  assert (Hrun : server false UpdateProject
            (JObject [("id", JString uuid_1); ("sourceApp", JString "Chrome")])
            alice (mkEnv uuid_6 20) (run false history empty_store) =
            (Ok (ProjectData (Some alice_project_updated)),
             (with_projects [alice_project_updated; bob_project]
       (log (Update TScreenshotProjects)
            (log (Select TScreenshotProjects) after_history)))))
    by (vm_compute; reflexivity).
  split; [exact Hrun|].
  exact (proj1 (update_is_partial_and_stamps_the_clock false history
                  (JObject [("id", JString uuid_1); ("sourceApp", JString "Chrome")])
                  alice (mkEnv uuid_6 20) _ _) Hrun).
Defined.

(** C8: the code at the failing input.  Bob calls [listScreenshots]
    with [projectId] the empty string, which is the id of no project.
    The truthiness test skips [getOwnedProject] and the project filter:
    the call sends the store a single [select] and succeeds, returning
    Bob's screenshot, whose [projectId] is not the one given.  A
    non-empty id of no project is answered with [NOT_FOUND], and so is
    the empty string by [updateScreenshot]. *)
Theorem listScreenshots_accepts_empty_projectId :
  let env := mkEnv uuid_6 15 in
  project_exists "" after_history = false /\
  (forall enforce_references,
     server enforce_references ListScreenshots
       (JObject [("projectId", JString "")]) bob env after_history =
       (Ok (ScreenshotList [bob_screenshot] 1),
        log (Select TScreenshots) after_history)) /\
  s_projectId bob_screenshot <> Some "" /\
  (forall enforce_references,
     fst (server enforce_references ListScreenshots
            (JObject [("projectId", JString "nonexistent")])
            bob env after_history) = project_not_found) /\
  (forall enforce_references,
     fst (server enforce_references UpdateScreenshot
            (JObject [("id", JString uuid_4); ("projectId", JString "")])
            bob env after_history) = project_not_found).
Proof.
  cbv zeta. split; [reflexivity|]. split; [intros []; vm_compute; reflexivity|].
  split; [discriminate|].
  split; intros []; vm_compute; reflexivity.
Qed.

(** ** The further properties at work on the small history *)

Lemma resolvers_find_the_owned_rows_witness :
  (exists s, In s (Screenshots after_history) /\
             s_id s = uuid_3 /\ s_userId s = "alice") /\
  (forall s, In s (Screenshots after_history) ->
     s_id s = uuid_3 -> s_userId s = "alice" -> readable_screenshot s = true) /\
  exists s, fst (getOwnedScreenshot uuid_3 "alice" after_history) = Ok s.
Proof.
  assert (Hown : exists s, In s (Screenshots after_history) /\
                           s_id s = uuid_3 /\ s_userId s = "alice").
  { exists alice_screenshot. simpl. auto. }
  assert (Hsafe : forall s, In s (Screenshots after_history) ->
                    s_id s = uuid_3 -> s_userId s = "alice" ->
                    readable_screenshot s = true).
  { intros s [Hs | [Hs | []]] _ _; subst s; reflexivity. }
  split; [exact Hown|]. split; [exact Hsafe|].
  exact (proj1 (proj2 (proj2 (proj2 (proj2
           (resolvers_find_the_owned_rows uuid_3 "alice" after_history)))))
           Hown Hsafe).
Defined.

Lemma listings_only_read_witness :
  In ListScreenshots [ListProjects; ListScreenshots; ListScreenshotEdits] /\
  same_rows after_history
    (snd (server false ListScreenshots (JObject [("projectId", JString uuid_1)])
            alice (mkEnv uuid_6 15) after_history)).
Proof.
  assert (Hin : In ListScreenshots
                   [ListProjects; ListScreenshots; ListScreenshotEdits])
    by (simpl; auto).
  split; [exact Hin|].
  exact (proj1 (listings_only_read false ListScreenshots
                  (JObject [("projectId", JString uuid_1)])
                  alice (mkEnv uuid_6 15) after_history Hin)).
Defined.

Lemma failed_call_with_safe_numbers_changes_no_row_witness :
  safe_numbers
    (JObject [("id", JString uuid_3); ("width", JNumber 800);
              ("projectId", JString uuid_2)]) = true /\
  fst (server false UpdateScreenshot
         (JObject [("id", JString uuid_3); ("width", JNumber 800);
                   ("projectId", JString uuid_2)])
         alice (mkEnv uuid_6 15) after_history) =
    Err (ActionError NOT_FOUND "Project not found.") /\
  same_rows after_history
    (snd (server false UpdateScreenshot
            (JObject [("id", JString uuid_3); ("width", JNumber 800);
                      ("projectId", JString uuid_2)])
            alice (mkEnv uuid_6 15) after_history)).
Proof.
  assert (Hrun : fst (server false UpdateScreenshot
                        (JObject [("id", JString uuid_3); ("width", JNumber 800);
                                  ("projectId", JString uuid_2)])
                        alice (mkEnv uuid_6 15) after_history) =
                 Err (ActionError NOT_FOUND "Project not found."))
    by (vm_compute; reflexivity).
  split; [reflexivity|]. split; [exact Hrun|].
  exact (failed_call_with_safe_numbers_changes_no_row false UpdateScreenshot
           (JObject [("id", JString uuid_3); ("width", JNumber 800);
                     ("projectId", JString uuid_2)])
           alice (mkEnv uuid_6 15) after_history _ eq_refl Hrun).
Defined.

Lemma rows_keep_their_identity_witness :
  In alice_project (ScreenshotProjects after_history) /\
  exists p',
    In p' (ScreenshotProjects
             (run false
                [mkRequest UpdateProject
                   (JObject [("id", JString uuid_1);
                             ("sourceApp", JString "Chrome")])
                   alice (mkEnv uuid_6 20)]
                after_history)) /\
    p_id p' = p_id alice_project /\ p_userId p' = p_userId alice_project /\
    p_createdAt p' = p_createdAt alice_project.
Proof.
  assert (Hin : In alice_project (ScreenshotProjects after_history))
    by (simpl; auto).
  split; [exact Hin|].
  exact (proj1 (rows_keep_their_identity false
                  [mkRequest UpdateProject
                     (JObject [("id", JString uuid_1);
                               ("sourceApp", JString "Chrome")])
                     alice (mkEnv uuid_6 20)]
                  after_history)
               alice_project Hin).
Defined.

Lemma projectId_is_never_cleared_witness :
  In alice_screenshot (Screenshots after_history) /\
  s_projectId alice_screenshot <> None /\
  exists s',
    In s' (Screenshots
             (run false
                [mkRequest UpdateScreenshot
                   (JObject [("id", JString uuid_3); ("width", JNumber 800)])
                   alice (mkEnv uuid_6 20)]
                after_history)) /\
    s_id s' = s_id alice_screenshot /\ s_projectId s' <> None.
Proof.
  assert (Hin : In alice_screenshot (Screenshots after_history))
    by (simpl; auto).
  assert (Hset : s_projectId alice_screenshot <> None) by discriminate.
  split; [exact Hin|]. split; [exact Hset|].
  exact (projectId_is_never_cleared false _ after_history alice_screenshot
           Hin Hset).
Defined.

Lemma timestamps_are_in_order_witness :
  reachable false after_history 14 /\ well_stamped 14 after_history.
Proof.
  assert (Hreach : reachable false after_history 14)
    by apply after_history_reachable.
  split; [exact Hreach|].
  exact (timestamps_are_in_order false after_history 14 Hreach).
Defined.



Lemma created_project_is_listed_next_witness :
  server false CreateProject
    (JObject [("title", JString "Bug report"); ("userId", JString "bob")])
    alice (mkEnv uuid_1 10) empty_store =
    (Ok (ProjectData (Some alice_project)),
     mkStore [alice_project] [] [] [Insert TScreenshotProjects]) /\
  fst (server false ListProjects JUndefined alice (mkEnv uuid_2 11)
         (mkStore [alice_project] [] [] [Insert TScreenshotProjects])) =
    Ok (ProjectList [alice_project] 1).
Proof.
  assert (Hrun : server false CreateProject
            (JObject [("title", JString "Bug report"); ("userId", JString "bob")])
            alice (mkEnv uuid_1 10) empty_store =
            (Ok (ProjectData (Some alice_project)),
             mkStore [alice_project] [] [] [Insert TScreenshotProjects]))
    by (vm_compute; reflexivity).
  split; [exact Hrun|].
  destruct (created_project_is_listed_next false _ alice _ empty_store _ _ Hrun)
    as (u & Hu & Hlist).
  inversion Hu; subst u.
  exact (Hlist JUndefined (mkEnv uuid_2 11) eq_refl).
Defined.

Lemma created_edit_is_listed_witness :
  server false CreateScreenshotEdit
    (JObject [("screenshotId", JString uuid_3); ("editType", JString "blur")])
    alice (mkEnv uuid_6 15) after_history =
    (Ok (EditData (Some alice_blur)),
     with_edits [alice_edit; alice_blur]
       (log (Insert TScreenshotEdits) (log (Select TScreenshots) after_history))) /\
  fst (server false ListScreenshotEdits
         (JObject [("screenshotId", JString uuid_3)])
         alice (mkEnv uuid_6 16)
         (with_edits [alice_edit; alice_blur]
            (log (Insert TScreenshotEdits)
                 (log (Select TScreenshots) after_history)))) =
    Ok (EditList [alice_edit; alice_blur] 2).
Proof.
  assert (Hrun : server false CreateScreenshotEdit
            (JObject [("screenshotId", JString uuid_3);
                      ("editType", JString "blur")])
            alice (mkEnv uuid_6 15) after_history =
            (Ok (EditData (Some alice_blur)),
             with_edits [alice_edit; alice_blur]
               (log (Insert TScreenshotEdits)
                    (log (Select TScreenshots) after_history))))
    by (vm_compute; reflexivity).
  split; [exact Hrun|].
  exact (proj2 (created_edit_is_listed false _ alice _ after_history _ _ Hrun)
               (mkEnv uuid_6 16)).
Defined.

Lemma listProjects_returns_all_own_projects_witness :
  requireUser alice = Ok (mkUser "alice") /\
  accepts ListProjects JUndefined = true /\
  fst (server false ListProjects JUndefined alice (mkEnv uuid_6 15) after_history) =
    Ok (ProjectList [alice_project] 1).
Proof.
  split; [reflexivity|]. split; [reflexivity|].
  exact (proj1 (listProjects_returns_all_own_projects false JUndefined alice
                  (mkEnv uuid_6 15) after_history (mkUser "alice")
                  eq_refl eq_refl)).
Defined.

Lemma missing_required_text_fails_validation_witness :
  required_key CreateScreenshot = Some "originalImageUrl" /\
  nonempty_string
    (prop "originalImageUrl" [("originalImageUrl", JString "")]) = false /\
  server false CreateScreenshot (JObject [("originalImageUrl", JString "")])
         alice (mkEnv uuid_6 15) after_history =
    (Err ValidationError, after_history).
Proof.
  split; [reflexivity|]. split; [reflexivity|].
  exact (missing_required_text_fails_validation false CreateScreenshot
           "originalImageUrl" [("originalImageUrl", JString "")]
           alice (mkEnv uuid_6 15) after_history eq_refl eq_refl).
Defined.

Lemma non_object_input_fails_validation_witness :
  is_object JNull = false /\
  (CreateProject <> ListProjects \/ JNull <> JUndefined) /\
  server false CreateProject JNull alice (mkEnv uuid_6 15) after_history =
    (Err ValidationError, after_history).
Proof.
  assert (Hcase : CreateProject <> ListProjects \/ JNull <> JUndefined)
    by (left; discriminate).
  split; [reflexivity|]. split; [exact Hcase|].
  exact (non_object_input_fails_validation false CreateProject JNull alice
           (mkEnv uuid_6 15) after_history eq_refl Hcase).
Defined.

Lemma undeclared_key_is_ignored_witness :
  ~ In "userId" (declared_keys CreateProject) /\
  server false CreateProject
    (JObject [("userId", JString "bob"); ("title", JString "Bug report")])
    alice (mkEnv uuid_1 10) empty_store =
  server false CreateProject (JObject [("title", JString "Bug report")])
    alice (mkEnv uuid_1 10) empty_store.
Proof.
  assert (Hk : ~ In "userId" (declared_keys CreateProject)).
  { simpl. intros [H | [H | [H | [H | []]]]]; discriminate. }
  split; [exact Hk|].
  exact (undeclared_key_is_ignored false CreateProject "userId" (JString "bob")
           [("title", JString "Bug report")] alice (mkEnv uuid_1 10)
           empty_store Hk).
Defined.

Lemma updateProject_succeeds_exactly_on_own_project_witness :
  requireUser alice = Ok (mkUser "alice") /\
  updateProject_input
    (JObject [("id", JString uuid_1); ("sourceApp", JString "Chrome")]) =
    Some (mkUpdateProjectInput uuid_1 None None None (Some "Chrome")) /\
  (exists p, In p (ScreenshotProjects after_history) /\
             p_id p = uuid_1 /\ p_userId p = "alice") /\
  exists resp,
    fst (server false UpdateProject
           (JObject [("id", JString uuid_1); ("sourceApp", JString "Chrome")])
           alice (mkEnv uuid_6 20) after_history) = Ok resp.
Proof.
  assert (Hown : exists p, In p (ScreenshotProjects after_history) /\
                           p_id p = uuid_1 /\ p_userId p = "alice").
  { exists alice_project. simpl. auto. }
  split; [reflexivity|]. split; [reflexivity|]. split; [exact Hown|].
  exact (proj1 (updateProject_succeeds_exactly_on_own_project false
                  (JObject [("id", JString uuid_1);
                            ("sourceApp", JString "Chrome")])
                  alice (mkEnv uuid_6 20) after_history (mkUser "alice")
                  (mkUpdateProjectInput uuid_1 None None None (Some "Chrome"))
                  eq_refl eq_refl)
               Hown).
Defined.

Lemma repeated_updateProject_is_the_later_one_witness :
  server false UpdateProject
    (JObject [("id", JString uuid_1); ("sourceApp", JString "Chrome")])
    alice (mkEnv uuid_6 20) after_history =
    (Ok (ProjectData (Some alice_project_updated)),
     with_projects [alice_project_updated; bob_project]
       (log (Update TScreenshotProjects)
            (log (Select TScreenshotProjects) after_history))) /\
  exists resp2 st2,
    server false UpdateProject
      (JObject [("id", JString uuid_1); ("sourceApp", JString "Chrome")])
      alice (mkEnv uuid_6 30)
      (with_projects [alice_project_updated; bob_project]
         (log (Update TScreenshotProjects)
              (log (Select TScreenshotProjects) after_history))) =
      (Ok resp2, st2) /\
    ScreenshotProjects st2 =
      ScreenshotProjects
        (snd (server false UpdateProject
                (JObject [("id", JString uuid_1); ("sourceApp", JString "Chrome")])
                alice (mkEnv uuid_6 30) after_history)).
Proof.
  assert (Hrun : server false UpdateProject
            (JObject [("id", JString uuid_1); ("sourceApp", JString "Chrome")])
            alice (mkEnv uuid_6 20) after_history =
            (Ok (ProjectData (Some alice_project_updated)),
             with_projects [alice_project_updated; bob_project]
               (log (Update TScreenshotProjects)
                    (log (Select TScreenshotProjects) after_history))))
    by (vm_compute; reflexivity).
  split; [exact Hrun|].
  exact (repeated_updateProject_is_the_later_one false _ alice (mkEnv uuid_6 20)
           (mkEnv uuid_6 30) after_history _ _ Hrun).
Defined.

Lemma createScreenshotEdit_succeeds_on_own_readable_screenshot_witness :
  requireUser alice = Ok (mkUser "alice") /\
  createScreenshotEdit_input
    (JObject [("screenshotId", JString uuid_3); ("editType", JString "blur")]) =
    Some (mkCreateScreenshotEditInput uuid_3 (Some "blur") None None) /\
  (exists s, In s (Screenshots after_history) /\
             s_id s = uuid_3 /\ s_userId s = "alice") /\
  (forall s, In s (Screenshots after_history) ->
     s_id s = uuid_3 -> s_userId s = "alice" -> readable_screenshot s = true) /\
  edit_exists uuid_6 after_history = false /\
  exists e st',
    server false CreateScreenshotEdit
      (JObject [("screenshotId", JString uuid_3); ("editType", JString "blur")])
      alice (mkEnv uuid_6 15) after_history = (Ok (EditData (Some e)), st') /\
    ScreenshotEdits st' = ScreenshotEdits after_history ++ [e].
Proof.
  assert (Hown : exists s, In s (Screenshots after_history) /\
                           s_id s = uuid_3 /\ s_userId s = "alice").
  { exists alice_screenshot. simpl. auto. }
  assert (Hsafe : forall s, In s (Screenshots after_history) ->
                    s_id s = uuid_3 -> s_userId s = "alice" ->
                    readable_screenshot s = true).
  { intros s [Hs | [Hs | []]] _ _; subst s; reflexivity. }
  split; [reflexivity|]. split; [reflexivity|]. split; [exact Hown|].
  split; [exact Hsafe|]. split; [reflexivity|].
  exact (createScreenshotEdit_succeeds_on_own_readable_screenshot false
           (JObject [("screenshotId", JString uuid_3);
                     ("editType", JString "blur")])
           alice (mkEnv uuid_6 15) after_history (mkUser "alice")
           (mkCreateScreenshotEditInput uuid_3 (Some "blur") None None)
           eq_refl eq_refl Hown Hsafe eq_refl).
Defined.

Lemma created_screenshot_is_listed_next_witness :
  requireUser alice = Ok (mkUser "alice") /\
  server false CreateScreenshot
    (JObject [("projectId", JString uuid_1);
              ("originalImageUrl", JString "img://3")])
    alice (mkEnv uuid_6 15) after_history =
    (Ok (ScreenshotData (Some alice_second_screenshot)),
     with_screenshots [alice_screenshot; bob_screenshot; alice_second_screenshot]
       (log (Insert TScreenshots)
            (log (Select TScreenshotProjects) after_history))) /\
  forallb readable_screenshot
    (alice_second_screenshot :: screenshots_of "alice" after_history) = true /\
  fst (server false ListScreenshots (JObject [("projectId", JString uuid_1)])
         alice (mkEnv uuid_6 16)
         (with_screenshots
            [alice_screenshot; bob_screenshot; alice_second_screenshot]
            (log (Insert TScreenshots)
                 (log (Select TScreenshotProjects) after_history)))) =
    Ok (ScreenshotList [alice_screenshot; alice_second_screenshot] 2).
Proof.
  assert (Hrun : server false CreateScreenshot
            (JObject [("projectId", JString uuid_1);
                      ("originalImageUrl", JString "img://3")])
            alice (mkEnv uuid_6 15) after_history =
            (Ok (ScreenshotData (Some alice_second_screenshot)),
             with_screenshots
               [alice_screenshot; bob_screenshot; alice_second_screenshot]
               (log (Insert TScreenshots)
                    (log (Select TScreenshotProjects) after_history))))
    by (vm_compute; reflexivity).
  assert (Hsafe : forallb readable_screenshot
                    (alice_second_screenshot
                       :: screenshots_of "alice" after_history) = true)
    by (vm_compute; reflexivity).
  assert (Hne : uuid_1 <> "") by discriminate.
  split; [reflexivity|]. split; [exact Hrun|]. split; [exact Hsafe|].
  exact (proj2 (created_screenshot_is_listed_next false _ alice _ after_history
                  (mkUser "alice") _ _ eq_refl Hrun Hsafe)
               uuid_1 (mkEnv uuid_6 16) eq_refl Hne).
Defined.

Lemma updateScreenshot_checks_screenshot_then_project_witness :
  requireUser alice = Ok (mkUser "alice") /\
  updateScreenshot_input
    (JObject [("id", JString uuid_3); ("projectId", JString uuid_2)]) =
    Some (mkUpdateScreenshotInput uuid_3 (Some uuid_2) None None None) /\
  (exists s, In s (Screenshots after_history) /\
             s_id s = uuid_3 /\ s_userId s = "alice") /\
  (forall s, In s (Screenshots after_history) ->
     s_id s = uuid_3 -> s_userId s = "alice" -> readable_screenshot s = true) /\
  no_owned_project uuid_2 "alice" after_history /\
  fst (server false UpdateScreenshot
         (JObject [("id", JString uuid_3); ("projectId", JString uuid_2)])
         alice (mkEnv uuid_6 15) after_history) = project_not_found.
Proof.
  assert (Hown : exists s, In s (Screenshots after_history) /\
                           s_id s = uuid_3 /\ s_userId s = "alice").
  { exists alice_screenshot. simpl. auto. }
  assert (Hsafe : forall s, In s (Screenshots after_history) ->
                    s_id s = uuid_3 -> s_userId s = "alice" ->
                    readable_screenshot s = true).
  { intros s [Hs | [Hs | []]] _ _; subst s; reflexivity. }
  assert (Hno : no_owned_project uuid_2 "alice" after_history).
  { intros p [Hp | [Hp | []]] Hid; subst p; simpl in *; discriminate. }
  split; [reflexivity|]. split; [reflexivity|]. split; [exact Hown|].
  split; [exact Hsafe|]. split; [exact Hno|].
  exact (proj1 (proj2 (updateScreenshot_checks_screenshot_then_project false
                         (JObject [("id", JString uuid_3);
                                   ("projectId", JString uuid_2)])
                         alice (mkEnv uuid_6 15) after_history (mkUser "alice")
                         (mkUpdateScreenshotInput uuid_3 (Some uuid_2) None None None)
                         eq_refl eq_refl)
                      Hown Hsafe uuid_2 eq_refl)
               Hno).
Defined.

Lemma action_writes_only_its_table_witness :
  table_of CreateProject <> TScreenshots /\
  Screenshots
    (snd (server false CreateProject (JObject []) alice (mkEnv uuid_6 15)
            after_history)) = Screenshots after_history.
Proof.
  assert (Hother : table_of CreateProject <> TScreenshots) by discriminate.
  split; [exact Hother|].
  exact (proj1 (proj2 (action_writes_only_its_table false CreateProject
                         (JObject []) alice (mkEnv uuid_6 15) after_history))
               Hother).
Defined.
